(** * claude-code-router-az: Azure bearer-token cache, auth middleware and
      configuration loading

    A shallow embedding of
    - [src/middleware/azure-auth.ts] (the token cache [getAzureToken] and the
      [azureAuthMiddleware] that rewrites [provider.api_base_url]),
    - the second copy of that middleware, which carries the deployment and
      the API version in [x-azure-*] request headers instead,
    - the configuration utilities [readConfigFile] and [initConfig],
    - [updateConfig] of [update-azure-config.js].

    Module-level JavaScript state ([tokenCache], [azureCredential]) is
    threaded explicitly.  The clock [Date.now()] is an input in
    milliseconds; the bearer-token provider of [@azure/identity] is an
    oracle giving the outcome of its k-th invocation.  Calls to [log] and
    [console.log] write nothing to the modelled state; what is kept of them
    is the conversion of their template arguments to strings, which throws
    for a configuration value that has a [toString] key of its own.  The
    middleware is embedded twice: over provider records typed as the
    configuration schema has them, and over records whose [api_base_url]
    may be absent or not a string. *)

From stdpp Require Import base option strings gmap fin_maps list.
From Stdlib Require Import ZArith Lia Ascii.

Local Open Scope string_scope.
Local Open Scope Z_scope.

(** ** The token cache of [azure-auth.ts] *)

Module TokenCache.

Definition AZURE_SCOPE : string := "https://cognitiveservices.azure.com/.default".

(** [{ token: string; expiresAt: number }] *)
Record CacheEntry := { token : string; expiresAt : Z }.

(** What awaiting [tokenProvider(...)] yields: the promise resolves with a
    token or rejects with an error. *)
Inductive Outcome :=
  | Resolved (tok : string)
  | Rejected (err : string).

(** The module-level variables.  [azureCredential] is [true] once
    [initializeAzureAuth] has built the credential (and with it
    [tokenProvider]); [acquisitions] counts the invocations of
    [tokenProvider] made so far. *)
Record AuthState := {
  tokenCache : gmap string CacheEntry;
  azureCredential : bool;
  acquisitions : nat
}.

Definition initializeAzureAuth (st : AuthState) : AuthState :=
  if azureCredential st then st
  else {| tokenCache := tokenCache st;
          azureCredential := true;
          acquisitions := acquisitions st |}.

(** [cached && cached.expiresAt > Date.now() + 60000]: the cached token
    when the test passes. *)
Definition cached_token (now : Z) (cached : option CacheEntry)
  : option string :=
  match cached with
  | Some e => if expiresAt e >? now + 60000 then Some (token e) else None
  | None => None
  end.

(** An [async] function runs synchronously up to its first [await].  The
    first segment of [getAzureToken] either returns the cached token or
    invokes [tokenProvider] and suspends on that invocation, the k-th. *)
Inductive Suspended :=
  | Returned (tok : string)
  | Awaiting (k : nat).

Definition getAzureToken_begin (now : Z) (st : AuthState)
  : AuthState * Suspended :=
  let cacheKey := AZURE_SCOPE in
  let cached := tokenCache st !! cacheKey in
  match cached_token now cached with
  | Some tok => (st, Returned tok)
  | None =>
      let st1 := initializeAzureAuth st in
      ({| tokenCache := tokenCache st1;
          azureCredential := azureCredential st1;
          acquisitions := S (acquisitions st1) |},
       Awaiting (acquisitions st1))
  end.

(** The second segment runs when the awaited promise settles: on success
    the token is cached for 50 minutes from the clock reading taken now, on
    failure the error is rethrown. *)
Definition getAzureToken_resume (now : Z) (r : Outcome) (st : AuthState)
  : AuthState * Outcome :=
  match r with
  | Resolved tok =>
      ({| tokenCache :=
            <[AZURE_SCOPE := {| token := tok;
                                expiresAt := now + 50 * 60 * 1000 |}]>
              (tokenCache st);
          azureCredential := azureCredential st;
          acquisitions := acquisitions st |},
       Resolved tok)
  | Rejected err => (st, Rejected err)
  end.

Section Sequential.

(** Outcome of the k-th invocation of [tokenProvider]. *)
Variable tokenProvider : nat → Outcome.

(** One call of [getAzureToken] run to completion with no other task
    scheduled in between: [now] is read at line 23, [now'] at line 44. *)
Definition getAzureToken (now now' : Z) (st : AuthState)
  : AuthState * Outcome :=
  match getAzureToken_begin now st with
  | (st1, Returned tok) => (st1, Resolved tok)
  | (st1, Awaiting k) => getAzureToken_resume now' (tokenProvider k) st1
  end.

(** *** Interleaved callers

    Several calls of [getAzureToken] in flight on the event loop.  Each
    is a task that is not yet started, suspended on its [await], or
    finished; the scheduler picks a task and runs its next segment to
    completion with the clock reading of that moment. *)
Inductive Task :=
  | Start
  | Waiting (k : nat)
  | Done (r : Outcome).

Definition step (w : AuthState * list Task) (ev : nat * Z)
  : AuthState * list Task :=
  let '(st, tasks) := w in
  let '(i, now) := ev in
  match tasks !! i with
  | Some Start =>
      match getAzureToken_begin now st with
      | (st1, Returned tok) => (st1, <[i := Done (Resolved tok)]> tasks)
      | (st1, Awaiting k) => (st1, <[i := Waiting k]> tasks)
      end
  | Some (Waiting k) =>
      let '(st1, r) := getAzureToken_resume now (tokenProvider k) st in
      (st1, <[i := Done r]> tasks)
  | Some (Done _) | None => w
  end.

Definition run (sch : list (nat * Z)) (w : AuthState * list Task)
  : AuthState * list Task :=
  foldl step w sch.

(** Two callers, both issued before either resumes: [i] starts first and
    [p] resumes first. *)
Definition two_callers (i p : nat) (t1 t2 t3 t4 : Z) : list (nat * Z) :=
  [(i, t1); ((1 - i)%nat, t2); (p, t3); ((1 - p)%nat, t4)].

End Sequential.

End TokenCache.

(** ** The request rewriter [azureAuthMiddleware] *)

Module Middleware.
Import TokenCache.

(** A provider record of the configuration: [name] and [api_base_url] are
    strings, [auth_type] and [api_key] may be absent. *)
Record Provider := {
  name : string;
  api_base_url : string;
  auth_type : option string;
  api_key : option string;
  models : list string
}.

(** The part of the Fastify request the middleware reads and writes.
    [selectedProvider] is a reference to a provider object shared with
    the configuration, not a copy of it. *)
Record Request := {
  headers : gmap string string;
  selectedProvider : option nat;
  azureDeployment : option string;
  azureApiVersion : option string
}.

(** [reply.code(c).send({ error: e })] *)
Record Reply := { code : Z; error : string }.

(** The state a request handler runs against: the token cache module and
    the provider objects, addressed by reference. *)
Record World := {
  auth : AuthState;
  store : gmap nat Provider
}.

(** JavaScript truthiness of an optional string property. *)
Definition truthy (v : option string) : bool :=
  match v with
  | Some s => negb (String.eqb s "")
  | None => false
  end.

(** [s.split(sep)[0]] for a non-empty separator: the text before the first
    occurrence of [sep], all of [s] when there is none. *)
Fixpoint split_head (sep s : string) : string :=
  if String.prefix sep s then ""
  else match s with
       | EmptyString => ""
       | String c s' => String c (split_head sep s')
       end.

Definition set_headers (hs : gmap string string) (r : Request) : Request :=
  {| headers := hs;
     selectedProvider := selectedProvider r;
     azureDeployment := azureDeployment r;
     azureApiVersion := azureApiVersion r |}.

(** [delete provider.api_key] *)
Definition delete_api_key (p : Provider) : Provider :=
  {| name := name p;
     api_base_url := api_base_url p;
     auth_type := auth_type p;
     api_key := None;
     models := models p |}.

(** [provider.api_base_url = url] *)
Definition set_api_base_url (url : string) (p : Provider) : Provider :=
  {| name := name p;
     api_base_url := url;
     auth_type := auth_type p;
     api_key := api_key p;
     models := models p |}.

(** [req.azureDeployment && req.azureApiVersion]: both values when both
    are truthy. *)
Definition deployment_info (r : Request) : option (string * string) :=
  if truthy (azureDeployment r) && truthy (azureApiVersion r) then
    match azureDeployment r, azureApiVersion r with
    | Some d, Some v => Some (d, v)
    | _, _ => None
    end
  else None.

Definition auth_failed : Reply :=
  {| code := 500; error := "Azure authentication failed" |}.

(** The statements both copies of the middleware share after the token has
    arrived: set the bearer header, drop the two API-key headers. *)
Definition bearer_headers (tok : string) (hs : gmap string string)
  : gmap string string :=
  delete "api-key" (delete "x-api-key" (<["authorization" := "Bearer " +:+ tok]> hs)).

End Middleware.

(** *** [src/middleware/azure-auth.ts]: the deployment goes into the URL *)

Module UrlVariant.
Import TokenCache Middleware.

Section WithProvider.

Variable tokenProvider : nat → Outcome.

Definition dynamicUrl (baseUrl deployment version : string) : string :=
  baseUrl +:+ "/openai/deployments/" +:+ deployment
          +:+ "/chat/completions?api-version=" +:+ version.

Definition azureAuthMiddleware (now now' : Z) (request : Request) (w : World)
  : World * Request * option Reply :=
  match selectedProvider request with
  | None => (w, request, None)
  | Some ref =>
      match store w !! ref with
      | None => (w, request, None)
      | Some provider =>
          if negb (bool_decide (auth_type provider = Some "azure"))
          then (w, request, None)
          else
            match getAzureToken tokenProvider now now' (auth w) with
            | (a, Resolved tok) =>
                let hs := bearer_headers tok (headers request) in
                let provider1 :=
                  if truthy (api_key provider)
                  then delete_api_key provider else provider in
                let provider2 :=
                  match deployment_info request with
                  | Some (d, v) =>
                      let baseUrl :=
                        split_head "/openai/" (api_base_url provider1) in
                      set_api_base_url (dynamicUrl baseUrl d v) provider1
                  | None => provider1
                  end in
                ({| auth := a; store := <[ref := provider2]> (store w) |},
                 set_headers hs request, None)
            | (a, Rejected err) =>
                ({| auth := a; store := store w |}, request,
                 Some auth_failed)
            end
      end
  end.

End WithProvider.

End UrlVariant.

(** *** The second copy: the deployment goes into request headers *)

Module HeaderVariant.
Import TokenCache Middleware.

Section WithProvider.

Variable tokenProvider : nat → Outcome.

Definition azureAuthMiddleware (now now' : Z) (request : Request) (w : World)
  : World * Request * option Reply :=
  match selectedProvider request with
  | None => (w, request, None)
  | Some ref =>
      match store w !! ref with
      | None => (w, request, None)
      | Some provider =>
          if negb (bool_decide (auth_type provider = Some "azure"))
          then (w, request, None)
          else
            match getAzureToken tokenProvider now now' (auth w) with
            | (a, Resolved tok) =>
                let hs := bearer_headers tok (headers request) in
                let provider1 :=
                  if truthy (api_key provider)
                  then delete_api_key provider else provider in
                let hs1 :=
                  match deployment_info request with
                  | Some (d, v) =>
                      <["x-azure-api-version" := v]>
                        (<["x-azure-deployment" := d]> hs)
                  | None => hs
                  end in
                ({| auth := a; store := <[ref := provider1]> (store w) |},
                 set_headers hs1 request, None)
            | (a, Rejected err) =>
                ({| auth := a; store := store w |}, request,
                 Some auth_failed)
            end
      end
  end.

End WithProvider.

End HeaderVariant.

(** *** Provider objects without a type

    [req.selectedProvider] is untyped in the source.  The middleware calls
    [provider.api_base_url.split], which is there only when
    [api_base_url] is a string; this second embedding of the two copies
    takes provider objects whose [api_base_url] may be anything else
    ([None]: absent, [null], a number, ...).  On providers with a string
    it is the embedding above. *)

Module Untyped.

Record Provider := {
  name : string;
  api_base_url : option string;
  auth_type : option string;
  api_key : option string;
  models : list string
}.

Record World := {
  auth : TokenCache.AuthState;
  store : gmap nat Provider
}.

(** [delete provider.api_key] *)
Definition delete_api_key (p : Provider) : Provider :=
  {| name := name p;
     api_base_url := api_base_url p;
     auth_type := auth_type p;
     api_key := None;
     models := models p |}.

(** [provider.api_base_url = url] *)
Definition set_api_base_url (url : string) (p : Provider) : Provider :=
  {| name := name p;
     api_base_url := Some url;
     auth_type := auth_type p;
     api_key := api_key p;
     models := models p |}.

(** A typed provider object seen without its type. *)
Definition of_typed (p : Middleware.Provider) : Provider :=
  {| name := Middleware.name p;
     api_base_url := Some (Middleware.api_base_url p);
     auth_type := Middleware.auth_type p;
     api_key := Middleware.api_key p;
     models := Middleware.models p |}.

Definition of_typed_world (w : Middleware.World) : World :=
  {| auth := Middleware.auth w;
     store := of_typed <$> Middleware.store w |}.

Module UrlVariant.

(** [src/middleware/azure-auth.ts].  When the request has a deployment and
    a version and [api_base_url] is not a string, the call of [split]
    throws inside the [try]: the headers are set and [api_key] is deleted
    by then, and the [catch] sends the error reply. *)
Definition azureAuthMiddleware (tokenProvider : nat → TokenCache.Outcome)
    (now now' : Z) (request : Middleware.Request) (w : World)
  : World * Middleware.Request * option Middleware.Reply :=
  match Middleware.selectedProvider request with
  | None => (w, request, None)
  | Some ref =>
      match store w !! ref with
      | None => (w, request, None)
      | Some provider =>
          if negb (bool_decide (auth_type provider = Some "azure"))
          then (w, request, None)
          else
            match TokenCache.getAzureToken tokenProvider now now' (auth w) with
            | (a, TokenCache.Resolved tok) =>
                let hs :=
                  Middleware.bearer_headers tok
                    (Middleware.headers request) in
                let provider1 :=
                  if Middleware.truthy (api_key provider)
                  then delete_api_key provider else provider in
                match Middleware.deployment_info request with
                | Some (d, v) =>
                    match api_base_url provider1 with
                    | Some url =>
                        let baseUrl := Middleware.split_head "/openai/" url in
                        let provider2 :=
                          set_api_base_url
                            (UrlVariant.dynamicUrl baseUrl d v) provider1 in
                        ({| auth := a;
                            store := <[ref := provider2]> (store w) |},
                         Middleware.set_headers hs request, None)
                    | None =>
                        ({| auth := a;
                            store := <[ref := provider1]> (store w) |},
                         Middleware.set_headers hs request,
                         Some Middleware.auth_failed)
                    end
                | None =>
                    ({| auth := a;
                        store := <[ref := provider1]> (store w) |},
                     Middleware.set_headers hs request, None)
                end
            | (a, TokenCache.Rejected err) =>
                ({| auth := a; store := store w |}, request,
                 Some Middleware.auth_failed)
            end
      end
  end.

End UrlVariant.

Module HeaderVariant.

(** The second copy never reads [api_base_url]. *)
Definition azureAuthMiddleware (tokenProvider : nat → TokenCache.Outcome)
    (now now' : Z) (request : Middleware.Request) (w : World)
  : World * Middleware.Request * option Middleware.Reply :=
  match Middleware.selectedProvider request with
  | None => (w, request, None)
  | Some ref =>
      match store w !! ref with
      | None => (w, request, None)
      | Some provider =>
          if negb (bool_decide (auth_type provider = Some "azure"))
          then (w, request, None)
          else
            match TokenCache.getAzureToken tokenProvider now now' (auth w) with
            | (a, TokenCache.Resolved tok) =>
                let hs :=
                  Middleware.bearer_headers tok
                    (Middleware.headers request) in
                let provider1 :=
                  if Middleware.truthy (api_key provider)
                  then delete_api_key provider else provider in
                let hs1 :=
                  match Middleware.deployment_info request with
                  | Some (d, v) =>
                      <["x-azure-api-version" := v]>
                        (<["x-azure-deployment" := d]> hs)
                  | None => hs
                  end in
                ({| auth := a; store := <[ref := provider1]> (store w) |},
                 Middleware.set_headers hs1 request, None)
            | (a, TokenCache.Rejected err) =>
                ({| auth := a; store := store w |}, request,
                 Some Middleware.auth_failed)
            end
      end
  end.

End HeaderVariant.

End Untyped.

(** ** Configuration loading: [readConfigFile] and [initConfig] *)

Module Config.

(** A parsed JSON5 value. *)
#[warnings="-register-all"]
Inductive JSON :=
  | JNull
  | JBool (b : bool)
  | JNum (n : Z)
  | JStr (s : string)
  | JArr (items : list JSON)
  | JObj (fields : gmap string JSON).

(** JavaScript truthiness of a property that may be absent. *)
Definition truthy (v : option JSON) : bool :=
  match v with
  | None | Some JNull => false
  | Some (JBool b) => b
  | Some (JNum n) => negb (Z.eqb n 0)
  | Some (JStr s) => negb (String.eqb s "")
  | Some (JArr _) | Some (JObj _) => true
  end.

(** Whether converting a value to a string, as a template literal and
    [process.env] do, returns.  A parsed object is converted through the
    [toString] it inherits, unless a key of its own named [toString] hides
    it: such a value is not callable, neither is any [valueOf] that gets
    the object to a primitive, and the conversion throws a [TypeError].  An
    array is joined, converting each element that is not [null]. *)
Fixpoint printable (v : JSON) : bool :=
  match v with
  | JArr items => forallb printable items
  | JObj fields =>
      match fields !! "toString" with
      | Some _ => false
      | None => true
      end
  | _ => true
  end.

(** The same for a property that may be absent ([undefined] converts). *)
Definition printable_opt (v : option JSON) : bool :=
  match v with
  | Some v => printable v
  | None => true
  end.

(** A JavaScript string as the C library sees it: cut at the first NUL. *)
Fixpoint c_str (s : string) : string :=
  match s with
  | EmptyString => ""
  | String c s' =>
      if Ascii.eqb c Ascii.zero then "" else String c (c_str s')
  end.

Fixpoint has_equals (s : string) : bool :=
  match s with
  | EmptyString => false
  | String c s' => Ascii.eqb c "="%char || has_equals s'
  end.

(** [process.env[name] = value] with the value already a string, on a
    POSIX system: [setenv(3)] refuses an empty name and a name with [=],
    and the refusal is ignored. *)
Definition setenv (name value : string) (env : gmap string string)
  : gmap string string :=
  let n := c_str name in
  if String.eqb n "" || has_equals n then env
  else <[n := c_str value]> env.

(** What [fs.readFile(CONFIG_FILE)] followed by [JSON5.parse] delivers: a
    document (a top-level object), a parse error, [ENOENT], or another read
    error. *)
Inductive ConfigFile :=
  | Parsed (doc : gmap string JSON)
  | Malformed
  | Missing
  | Unreadable.

(** The answers typed at the four prompts of the first-run set-up. *)
Record Answers := {
  ans_name : string;
  ans_APIKEY : string;
  ans_baseUrl : string;
  ans_model : string
}.

(** How [readConfigFile] ends: it returns a configuration, the process
    exits, or the promise rejects because [writeConfigFile] threw. *)
Inductive Load :=
  | Loaded (config : gmap string JSON)
  | Exit (status : Z)
  | WriteFailed.

(** How [initConfig] ends: it returns the configuration, the process
    exits, or its promise rejects. *)
Inductive Init :=
  | Ready (config : gmap string JSON)
  | Exited (status : Z)
  | Failed.

(** The outcome [l] with entry [k] of a loaded configuration set to [v],
    or removed when [v] is [None]. *)
Definition with_field (k : string) (v : option JSON) (l : Load) : Load :=
  match l with
  | Loaded config => Loaded (partial_alter (λ _, v) k config)
  | other => other
  end.

Section WithEnvironment.

(** Trimmed output of the k-th run of [az account get-access-token],
    [None] when [execSync] throws. *)
Variable az_cli : nat → option string.

(** [DEFAULT_CONFIG] of [../constants]. *)
Variable DEFAULT_CONFIG : gmap string JSON.

(** The string a value converts to, where the conversion returns. *)
Variable ToString : JSON → string.

(** The order in which [Object.assign] visits the keys of an object. *)
Variable own_keys : gmap string JSON → list string.

Definition getAzureToken (k : nat) : option string := az_cli k.

(** The callback of [providers.forEach]: [None] when it throws a
    [TypeError] (reading a property of [null], or converting
    [provider.name] for the log line of either branch), otherwise the
    provider as it is afterwards and the number of [az] runs made so
    far. *)
Definition inject_one (k : nat) (provider : JSON) : option (nat * JSON) :=
  match provider with
  | JNull => None
  | JObj o =>
      match o !! "auth_type" with
      | Some (JStr t) =>
          if String.eqb t "azure" then
            if printable_opt (o !! "name") then
              match getAzureToken k with
              | Some tok =>
                  if negb (String.eqb tok "")
                  then Some (S k, JObj (<["api_key" := JStr tok]> o))
                  else Some (S k, provider)
              | None => Some (S k, provider)
              end
            else None
          else Some (k, provider)
      | _ => Some (k, provider)
      end
  | _ => Some (k, provider)
  end.

Fixpoint inject (k : nat) (providers : list JSON)
  : option (nat * list JSON) :=
  match providers with
  | [] => Some (k, [])
  | p :: rest =>
      match inject_one k p with
      | None => None
      | Some (k1, p1) =>
          match inject k1 rest with
          | None => None
          | Some (k2, rest1) => Some (k2, p1 :: rest1)
          end
      end
  end.

(** The body of the inner [try] once [JSON5.parse] has returned. *)
Definition inject_tokens (parsedConfig : gmap string JSON) : Load :=
  let key :=
    if truthy (parsedConfig !! "providers") then "providers"
    else "Providers" in
  if truthy (parsedConfig !! key) then
    match parsedConfig !! key with
    | Some (JArr providers) =>
        match inject 0 providers with
        | Some (_, providers1) =>
            Loaded (<[key := JArr providers1]> parsedConfig)
        | None => Exit 1
        end
    | _ => Exit 1
    end
  else Loaded parsedConfig.

Definition wizard_config (a : Answers) : gmap string JSON :=
  <["Router" := JObj {[ "default" := JStr (ans_name a +:+ "," +:+ ans_model a) ]}]>
    (<["Providers" :=
         JArr [JObj (<["name" := JStr (ans_name a)]>
                      (<["api_base_url" := JStr (ans_baseUrl a)]>
                         (<["api_key" := JStr (ans_APIKEY a)]>
                            {[ "models" := JArr [JStr (ans_model a)] ]})))]]>
       DEFAULT_CONFIG).

Definition readConfigFile (file : ConfigFile) (a : Answers)
    (write_ok : bool) : Load :=
  match file with
  | Parsed parsedConfig => inject_tokens parsedConfig
  | Malformed => Exit 1
  | Missing => if write_ok then Loaded (wizard_config a) else WriteFailed
  | Unreadable => Exit 1
  end.

(** [Object.assign(process.env, config)]: the keys are visited in order,
    each value is converted and assigned; a conversion that throws ends the
    loop with the entries assigned so far.  The flag tells whether the loop
    came to its end. *)
Fixpoint assign_env (config : gmap string JSON) (keys : list string)
    (env : gmap string string) : gmap string string * bool :=
  match keys with
  | [] => (env, true)
  | k :: rest =>
      match config !! k with
      | Some v =>
          if printable v
          then assign_env config rest (setenv k (ToString v) env)
          else (env, false)
      | None => assign_env config rest env
      end
  end.

Definition initConfig (file : ConfigFile) (a : Answers) (write_ok : bool)
    (env : gmap string string) : Init * gmap string string :=
  match readConfigFile file a write_ok with
  | Loaded config =>
      match assign_env config (own_keys config) env with
      | (env1, true) => (Ready config, env1)
      | (env1, false) => (Failed, env1)
      end
  | Exit status => (Exited status, env)
  | WriteFailed => (Failed, env)
  end.

End WithEnvironment.

End Config.

(** ** Callers that have not started yet *)

Definition is_start (t : TokenCache.Task) : bool :=
  match t with
  | TokenCache.Start => true
  | _ => false
  end.

(** The number of tasks that have not run their first segment. *)
Definition not_started (tasks : list TokenCache.Task) : nat :=
  length (List.filter is_start tasks).


(** [s.includes(sep)] *)
Fixpoint includes (sep s : string) : bool :=
  String.prefix sep s
  || match s with
     | EmptyString => false
     | String _ s' => includes sep s'
     end.

(** ** Azure providers of a configuration document *)

(** [provider.auth_type === 'azure'] on a provider that is not [null]. *)
Definition is_azure (provider : Config.JSON) : bool :=
  match provider with
  | Config.JObj o =>
      match o !! "auth_type" with
      | Some (Config.JStr t) => String.eqb t "azure"
      | _ => false
      end
  | _ => false
  end.

(** The providers on which the [forEach] callbacks of [readConfigFile] and
    [updateConfig] throw: [null], and an Azure provider whose [name] cannot
    be converted for the log line. *)
Definition callback_throws (provider : Config.JSON) : bool :=
  match provider with
  | Config.JNull => true
  | Config.JObj o =>
      is_azure provider && negb (Config.printable_opt (o !! "name"))
  | _ => false
  end.

(** [parsedConfig.providers || parsedConfig.Providers]: the key whose
    entry is used. *)
Definition providers_key (doc : gmap string Config.JSON) : string :=
  if Config.truthy (doc !! "providers") then "providers" else "Providers".

(** The number of Azure providers in front of position [i]. *)
Definition azure_before (i : nat) (providers : list Config.JSON) : nat :=
  length (List.filter is_azure (take i providers)).

(** ** Names of environment variables *)

(** A name that [setenv] accepts as it is written: not empty, without [=]
    and without NUL. *)
Definition env_name (n : string) : bool :=
  negb (String.eqb n "") && negb (Config.has_equals n)
  && String.eqb (Config.c_str n) n.

(** ** [update-azure-config.js] *)

Module UpdateConfig.
Import Config.

(** How [updateConfig] ends: the configuration is written back,
    [process.exit] is called with a status, or an exception escapes. *)
Inductive Update :=
  | Written (config : gmap string JSON)
  | Exit (status : Z)
  | Thrown.

(** The callback of [config.providers.forEach]: [None] when it throws,
    reading [auth_type] of [null] or converting [provider.name] for the
    line it prints. *)
Definition update_one (token : string) (provider : JSON) : option JSON :=
  match provider with
  | JNull => None
  | JObj o =>
      match o !! "auth_type" with
      | Some (JStr t) =>
          if String.eqb t "azure" then
            if printable_opt (o !! "name")
            then Some (JObj (<["api_key" := JStr token]> o))
            else None
          else Some provider
      | _ => Some provider
      end
  | _ => Some provider
  end.

Fixpoint update_all (token : string) (providers : list JSON)
  : option (list JSON) :=
  match providers with
  | [] => Some []
  | p :: rest =>
      match update_one token p with
      | None => None
      | Some p1 =>
          match update_all token rest with
          | None => None
          | Some rest1 => Some (p1 :: rest1)
          end
      end
  end.

(** [file] is what [JSON.parse(fs.readFileSync(configPath))] returns
    ([None] when either throws), [az] the trimmed output of the one run of
    [az account get-access-token] ([None] when [execSync] throws), and
    [write_ok] tells whether [fs.writeFileSync] succeeds. *)
Definition updateConfig (file : option (gmap string JSON))
    (az : option string) (write_ok : bool) : Update :=
  match file with
  | None => Thrown
  | Some config =>
      match az with
      | None => Exit 1
      | Some token =>
          match config !! "providers" with
          | Some (JArr providers) =>
              match update_all token providers with
              | Some providers1 =>
                  if write_ok
                  then Written (<["providers" := JArr providers1]> config)
                  else Thrown
              | None => Thrown
              end
          | _ => Thrown
          end
      end
  end.

End UpdateConfig.

(** * Sample inputs *)

(** Sample environment used to exercise the statements below: a provider
    whose first answer is ["tokenA"] and whose later answers are
    ["tokenB"], one that always fails, and the state of a fresh process. *)
Definition two_tokens (k : nat) : TokenCache.Outcome :=
  match k with
  | O => TokenCache.Resolved "tokenA"
  | S _ => TokenCache.Resolved "tokenB"
  end.

Definition always_rejects (k : nat) : TokenCache.Outcome :=
  TokenCache.Rejected "CredentialUnavailableError".

Definition fresh_process : TokenCache.AuthState :=
  {| TokenCache.tokenCache := ∅;
     TokenCache.azureCredential := false;
     TokenCache.acquisitions := 0 |}.

(** The state after a token ["old"] was cached with expiry [100000] by the
    first invocation. *)
Definition one_cached : TokenCache.AuthState :=
  {| TokenCache.tokenCache :=
       {[ TokenCache.AZURE_SCOPE :=
            {| TokenCache.token := "old"; TokenCache.expiresAt := 100000 |} ]};
     TokenCache.azureCredential := true;
     TokenCache.acquisitions := 1 |}.

(** Sample requests and configuration objects. *)
Definition azure_gpt4 : Middleware.Provider :=
  {| Middleware.name := "azure-gpt4";
     Middleware.api_base_url :=
       "https://res.openai.azure.com/openai/deployments/gpt-4-deployment/chat/completions?api-version=2024-10-21";
     Middleware.auth_type := Some "azure";
     Middleware.api_key := Some "dummy";
     Middleware.models := ["gpt-4"] |}.

Definition openrouter : Middleware.Provider :=
  {| Middleware.name := "openrouter";
     Middleware.api_base_url := "https://openrouter.ai/api/v1/chat/completions";
     Middleware.auth_type := None;
     Middleware.api_key := Some "sk-xxx";
     Middleware.models := ["anthropic/claude-3.5-sonnet"] |}.

Definition sample_world : Middleware.World :=
  {| Middleware.auth := fresh_process;
     Middleware.store := <[0%nat := azure_gpt4]> {[ 1%nat := openrouter ]} |}.

Definition sample_request (ref : nat) : Middleware.Request :=
  {| Middleware.headers :=
       <["x-api-key" := "client-key"]> {[ "content-type" := "application/json" ]};
     Middleware.selectedProvider := Some ref;
     Middleware.azureDeployment := Some "gpt-4o-deployment";
     Middleware.azureApiVersion := Some "2024-10-21" |}.

(** An Azure provider object whose [api_base_url] is missing. *)
Definition bare_azure : Untyped.Provider :=
  {| Untyped.name := "azure-bare";
     Untyped.api_base_url := None;
     Untyped.auth_type := Some "azure";
     Untyped.api_key := Some "dummy";
     Untyped.models := ["gpt-4"] |}.

Definition bare_world : Untyped.World :=
  {| Untyped.auth := fresh_process;
     Untyped.store := {[ 0%nat := bare_azure ]} |}.

(** A later request for the same provider with another deployment, and a
    request that carries no deployment but a client-made [x-azure-*]
    header. *)
Definition later_request (ref : nat) : Middleware.Request :=
  {| Middleware.headers := {[ "api-key" := "client-key" ]};
     Middleware.selectedProvider := Some ref;
     Middleware.azureDeployment := Some "gpt-35-turbo-deployment";
     Middleware.azureApiVersion := Some "2024-06-01" |}.

Definition plain_request (ref : nat) : Middleware.Request :=
  {| Middleware.headers := {[ "x-azure-deployment" := "from-client" ]};
     Middleware.selectedProvider := Some ref;
     Middleware.azureDeployment := None;
     Middleware.azureApiVersion := Some "2024-06-01" |}.

(** A configuration document with one static-key provider whose [Router]
    table has a [background] route to a model that no provider lists, and
    no [default] route. *)
Definition no_default_doc : gmap string Config.JSON :=
  <["providers" :=
      Config.JArr
        [Config.JObj
           (<["name" := Config.JStr "openrouter"]>
              (<["api_base_url" :=
                   Config.JStr "https://openrouter.ai/api/v1/chat/completions"]>
                 (<["api_key" := Config.JStr "sk-xxx"]>
                    {[ "models" :=
                         Config.JArr
                           [Config.JStr "anthropic/claude-3.5-sonnet"] ]})))]]>
    (<["Router" :=
         Config.JObj {[ "background" := Config.JStr "azure-gpt35,gpt-35-turbo" ]}]>
       (<["APIKEY" := Config.JStr "your-secret-key"]>
          {[ "HOST" := Config.JStr "127.0.0.1" ]})).

(** A document with one Azure provider and one static-key provider under
    [providers], and the same document after the token ["eyJ0"] was put
    in. *)
Definition azure_provider_json : gmap string Config.JSON :=
  <["name" := Config.JStr "azure-gpt4"]>
    (<["api_base_url" :=
         Config.JStr "https://res.openai.azure.com/openai/deployments/gpt-4"]>
       (<["auth_type" := Config.JStr "azure"]>
          {[ "models" := Config.JArr [Config.JStr "gpt-4"] ]})).

Definition static_provider_json : gmap string Config.JSON :=
  <["name" := Config.JStr "openrouter"]>
    (<["api_key" := Config.JStr "sk-xxx"]>
       {[ "models" := Config.JArr [Config.JStr "anthropic/claude-3.5-sonnet"] ]}).

Definition azure_doc : gmap string Config.JSON :=
  <["providers" :=
      Config.JArr [Config.JObj static_provider_json;
                   Config.JObj azure_provider_json]]>
    (<["Router" :=
         Config.JObj {[ "default" := Config.JStr "azure-gpt4,gpt-4" ]}]>
       {[ "APIKEY" := Config.JStr "your-secret-key" ]}).

Definition azure_doc_with_token : gmap string Config.JSON :=
  <["providers" :=
      Config.JArr [Config.JObj static_provider_json;
                   Config.JObj
                     (<["api_key" := Config.JStr "eyJ0"]> azure_provider_json)]]>
    azure_doc.

Definition az_logged_in (k : nat) : option string := Some "eyJ0".

(** A document with two top-level keys that are not environment names, and
    an enumeration of the keys of an object. *)
Definition odd_names_doc : gmap string Config.JSON :=
  <["A=B" := Config.JStr "1"]>
    (<["" := Config.JStr "2"]>
       {[ "APIKEY" := Config.JStr "your-secret-key" ]}).

Definition sorted_keys (m : gmap string Config.JSON) : list string :=
  (map_to_list m).*1.

Definition no_answers : Config.Answers :=
  {| Config.ans_name := ""; Config.ans_APIKEY := "";
     Config.ans_baseUrl := ""; Config.ans_model := "" |}.

Definition az_logged_out (k : nat) : option string := None.

Definition sample_ToString (v : Config.JSON) : string :=
  match v with
  | Config.JStr s => s
  | Config.JNull => "null"
  | Config.JBool true => "true"
  | Config.JBool false => "false"
  | _ => "[object Object]"
  end.

(** * Properties *)

(** ** Token cache *)

Section TokenCacheFacts.
Import TokenCache.

Variable tokenProvider : nat → Outcome.

Lemma initializeAzureAuth_cache st :
  tokenCache (initializeAzureAuth st) = tokenCache st.
Proof. unfold initializeAzureAuth. by destruct (azureCredential st). Qed.

Lemma initializeAzureAuth_acquisitions st :
  acquisitions (initializeAzureAuth st) = acquisitions st.
Proof. unfold initializeAzureAuth. by destruct (azureCredential st). Qed.

(** A cache hit returns without touching the state. *)
Lemma getAzureToken_hit now now' st tok :
  cached_token now (tokenCache st !! AZURE_SCOPE) = Some tok →
  getAzureToken tokenProvider now now' st = (st, Resolved tok).
Proof.
  intros Hc. unfold getAzureToken, getAzureToken_begin. cbn zeta.
  by rewrite Hc.
Qed.

(** A cache miss invokes [tokenProvider] once and resumes with its
    outcome. *)
Lemma getAzureToken_miss now now' st :
  cached_token now (tokenCache st !! AZURE_SCOPE) = None →
  getAzureToken tokenProvider now now' st =
    getAzureToken_resume now' (tokenProvider (acquisitions st))
      {| tokenCache := tokenCache st;
         azureCredential := true;
         acquisitions := S (acquisitions st) |}.
Proof.
  intros Hc. unfold getAzureToken, getAzureToken_begin. cbn zeta.
  rewrite Hc, initializeAzureAuth_cache, initializeAzureAuth_acquisitions.
  do 2 f_equal. unfold initializeAzureAuth.
  by destruct (azureCredential st) eqn:E.
Qed.

Lemma cached_token_stale now e :
  expiresAt e ≤ now + 60000 → cached_token now (Some e) = None.
Proof.
  intros Hle. cbn. destruct (Z.gtb_spec (expiresAt e) (now + 60000)); [lia | done].
Qed.

Lemma cached_token_fresh now e :
  now + 60000 < expiresAt e → cached_token now (Some e) = Some (token e).
Proof.
  intros Hlt. cbn. destruct (Z.gtb_spec (expiresAt e) (now + 60000)); [done | lia].
Qed.

(** An entry that expires exactly 60 seconds from now is already stale. *)
Example cached_token_at_margin :
  cached_token 40000 (Some {| token := "old"; expiresAt := 100000 |}) = None.
Proof. reflexivity. Qed.

Example cached_token_before_margin :
  cached_token 39999 (Some {| token := "old"; expiresAt := 100000 |})
  = Some "old".
Proof. reflexivity. Qed.

(** A miss stays a miss as long as the cache and the clock do not move
    backwards. *)
Lemma cached_token_None_mono now now2 c :
  now ≤ now2 → cached_token now c = None → cached_token now2 c = None.
Proof.
  intros Hle. destruct c as [e|]; [| done]. cbn.
  destruct (Z.gtb_spec (expiresAt e) (now + 60000)); [done |].
  intros _. destruct (Z.gtb_spec (expiresAt e) (now2 + 60000)); [lia | done].
Qed.

End TokenCacheFacts.

(** C3. When a call of [getAzureToken] acquires a token and stores it at
    clock reading [t0], a second call whose clock reading is strictly
    below [t0] plus 49 minutes returns the same token and leaves the state
    as it is, so that one acquisition has been made in total. *)
Theorem getAzureToken_reuse_within_49_minutes
    (tokenProvider : nat → TokenCache.Outcome)
    (now0 t0 now1 now1' : Z) (st st1 : TokenCache.AuthState) (tok : string) :
  TokenCache.cached_token now0
    (TokenCache.tokenCache st !! TokenCache.AZURE_SCOPE) = None →
  TokenCache.getAzureToken tokenProvider now0 t0 st
    = (st1, TokenCache.Resolved tok) →
  now1 < t0 + 49 * 60 * 1000 →
  TokenCache.getAzureToken tokenProvider now1 now1' st1
    = (st1, TokenCache.Resolved tok)
  ∧ TokenCache.acquisitions st1 = S (TokenCache.acquisitions st).
Proof.
  intros Hmiss Hfirst Hnow.
  rewrite getAzureToken_miss in Hfirst by done.
  destruct (tokenProvider (TokenCache.acquisitions st)) as [tok'|err];
    cbn in Hfirst; [| done].
  injection Hfirst as <- <-. split; [| done].
  apply getAzureToken_hit. cbn [TokenCache.tokenCache].
  rewrite lookup_insert_eq.
  rewrite cached_token_fresh; cbn; [done | lia].
Qed.

(** On a fresh process: a token stored at reading 5 is reused by a call at
    reading 2940004, one millisecond inside the 49 minutes. *)
Lemma getAzureToken_reuse_within_49_minutes_witness :
  let st1 := (TokenCache.getAzureToken two_tokens 0 5 fresh_process).1 in
  TokenCache.getAzureToken two_tokens 2940004 2940009 st1
    = (st1, TokenCache.Resolved "tokenA")
  ∧ TokenCache.acquisitions st1 = 1%nat.
Proof.
  apply (getAzureToken_reuse_within_49_minutes two_tokens 0 5 2940004 2940009
           fresh_process); [reflexivity | reflexivity | lia].
Defined.

(** C4. When the cached entry expires less than 60 seconds after the
    clock reading of the call, [getAzureToken] invokes [tokenProvider]
    once more and its result is the outcome of that invocation, not the
    cached token. *)
Theorem getAzureToken_refreshes_inside_margin
    (tokenProvider : nat → TokenCache.Outcome)
    (now now' : Z) (st : TokenCache.AuthState) (e : TokenCache.CacheEntry) :
  TokenCache.tokenCache st !! TokenCache.AZURE_SCOPE = Some e →
  TokenCache.expiresAt e < now + 60000 →
  let r := TokenCache.getAzureToken tokenProvider now now' st in
  TokenCache.acquisitions r.1 = S (TokenCache.acquisitions st)
  ∧ r.2 = tokenProvider (TokenCache.acquisitions st).
Proof.
  intros Hc Hexp r. subst r.
  rewrite getAzureToken_miss
    by (rewrite Hc; apply cached_token_stale; lia).
  by destruct (tokenProvider (TokenCache.acquisitions st)).
Qed.

(** An entry expiring at 100000 is refreshed by a call at reading 40001. *)
Lemma getAzureToken_refreshes_inside_margin_witness :
  let r := TokenCache.getAzureToken two_tokens 40001 40002 one_cached in
  TokenCache.acquisitions r.1 = 2%nat
  ∧ r.2 = TokenCache.Resolved "tokenB".
Proof.
  apply (getAzureToken_refreshes_inside_margin two_tokens 40001 40002
           one_cached
           {| TokenCache.token := "old"; TokenCache.expiresAt := 100000 |});
    [reflexivity | simpl; lia].
Defined.

(** C5. When [getAzureToken] has to acquire and the acquisition fails, the
    error reaches the caller and the cache is exactly what it was before
    the call; a later call (the clock not running backwards) acquires
    again. *)
Theorem getAzureToken_failure_not_cached
    (tokenProvider : nat → TokenCache.Outcome)
    (now now' : Z) (st : TokenCache.AuthState) (err : string) :
  TokenCache.cached_token now
    (TokenCache.tokenCache st !! TokenCache.AZURE_SCOPE) = None →
  tokenProvider (TokenCache.acquisitions st) = TokenCache.Rejected err →
  let r := TokenCache.getAzureToken tokenProvider now now' st in
  r.2 = TokenCache.Rejected err
  ∧ TokenCache.tokenCache r.1 = TokenCache.tokenCache st
  ∧ ∀ now2 now2' : Z, now ≤ now2 →
      let r2 := TokenCache.getAzureToken tokenProvider now2 now2' r.1 in
      TokenCache.acquisitions r2.1 = S (TokenCache.acquisitions r.1)
      ∧ r2.2 = tokenProvider (TokenCache.acquisitions r.1).
Proof.
  intros Hmiss Hrej r. subst r.
  rewrite getAzureToken_miss by done. rewrite Hrej. cbn.
  split; [done |]. split; [done |].
  intros now2 now2' Hle.
  rewrite getAzureToken_miss.
  - cbn [TokenCache.acquisitions].
    by destruct (tokenProvider (S (TokenCache.acquisitions st))).
  - cbn [TokenCache.tokenCache]. by apply (cached_token_None_mono now).
Qed.

(** The same stale entry with a provider that always fails. *)
Lemma getAzureToken_failure_not_cached_witness :
  let r := TokenCache.getAzureToken always_rejects 40001 40002 one_cached in
  r.2 = TokenCache.Rejected "CredentialUnavailableError"
  ∧ TokenCache.tokenCache r.1 = TokenCache.tokenCache one_cached
  ∧ ∀ now2 now2' : Z, 40001 ≤ now2 →
      let r2 := TokenCache.getAzureToken always_rejects now2 now2' r.1 in
      TokenCache.acquisitions r2.1 = S (TokenCache.acquisitions r.1)
      ∧ r2.2 = always_rejects (TokenCache.acquisitions r.1).
Proof.
  apply (getAzureToken_failure_not_cached always_rejects 40001 40002
           one_cached "CredentialUnavailableError"); reflexivity.
Defined.

(** ** Interleaved callers *)

Section InterleavingFacts.
Import TokenCache.

Variable tokenProvider : nat → Outcome.

(** Starting a task on a cache without a valid entry invokes
    [tokenProvider] and parks the task on that invocation. *)
Lemma step_start_miss st tasks i now :
  tasks !! i = Some Start →
  cached_token now (tokenCache st !! AZURE_SCOPE) = None →
  step tokenProvider (st, tasks) (i, now) =
    ({| tokenCache := tokenCache st;
        azureCredential := true;
        acquisitions := S (acquisitions st) |},
     <[i := Waiting (acquisitions st)]> tasks).
Proof.
  intros Hi Hc. unfold step, getAzureToken_begin. cbn zeta.
  rewrite Hi, Hc, initializeAzureAuth_cache, initializeAzureAuth_acquisitions.
  do 2 f_equal. unfold initializeAzureAuth.
  by destruct (azureCredential st) eqn:E.
Qed.

(** Resuming a parked task delivers the outcome of its own invocation. *)
Lemma step_resume st tasks i k now :
  tasks !! i = Some (Waiting k) →
  step tokenProvider (st, tasks) (i, now) =
    ((getAzureToken_resume now (tokenProvider k) st).1,
     <[i := Done (tokenProvider k)]> tasks).
Proof.
  intros Hi. unfold step. rewrite Hi.
  by destruct (tokenProvider k).
Qed.

Lemma getAzureToken_resume_fst_acquisitions now r st :
  acquisitions (getAzureToken_resume now r st).1 = acquisitions st.
Proof. by destruct r. Qed.

End InterleavingFacts.

(** C1, as the code behaves.  Two calls of [getAzureToken] issued while the
    cache has no entry, in either order and resumed in either order, make
    two invocations of [tokenProvider] between them, and each caller is
    handed the outcome of its own invocation. *)
Theorem concurrent_callers_each_acquire
    (tokenProvider : nat → TokenCache.Outcome)
    (i p : nat) (t1 t2 t3 t4 : Z) (st : TokenCache.AuthState) :
  (i < 2)%nat → (p < 2)%nat →
  TokenCache.tokenCache st !! TokenCache.AZURE_SCOPE = None →
  let n := TokenCache.acquisitions st in
  let w := TokenCache.run tokenProvider
             (TokenCache.two_callers i p t1 t2 t3 t4)
             (st, [TokenCache.Start; TokenCache.Start]) in
  TokenCache.acquisitions w.1 = S (S n)
  ∧ w.2 !! i = Some (TokenCache.Done (tokenProvider n))
  ∧ w.2 !! (1 - i)%nat = Some (TokenCache.Done (tokenProvider (S n))).
Proof.
  intros Hi Hp Hc n w. subst n w.
  unfold TokenCache.run, TokenCache.two_callers. cbn [foldl].
  assert (Hm : ∀ t, TokenCache.cached_token t
                      (TokenCache.tokenCache st !! TokenCache.AZURE_SCOPE) = None)
    by (intros t; by rewrite Hc).
  destruct i as [|[|i]]; [| | lia]; destruct p as [|[|p]]; try lia;
    cbn [Nat.sub];
    rewrite (step_start_miss tokenProvider st) by (done || apply Hm);
    rewrite (step_start_miss tokenProvider) by (done || apply Hm);
    cbn [TokenCache.acquisitions];
    (erewrite (step_resume tokenProvider) by reflexivity);
    (erewrite (step_resume tokenProvider) by reflexivity);
    cbn [fst snd];
    rewrite !getAzureToken_resume_fst_acquisitions;
    done.
Qed.

(** The second caller starts first and the first caller resumes first. *)
Lemma concurrent_callers_each_acquire_witness :
  let w := TokenCache.run two_tokens
             (TokenCache.two_callers 1 0 10 11 12 13)
             (fresh_process, [TokenCache.Start; TokenCache.Start]) in
  TokenCache.acquisitions w.1 = 2%nat
  ∧ w.2 !! 1%nat = Some (TokenCache.Done (TokenCache.Resolved "tokenA"))
  ∧ w.2 !! 0%nat = Some (TokenCache.Done (TokenCache.Resolved "tokenB")).
Proof.
  apply (concurrent_callers_each_acquire two_tokens 1 0 10 11 12 13
           fresh_process); [lia | lia | reflexivity].
Defined.

(** C1 as stated fails: on a fresh process, two callers issued back to back
    before either resumes make two invocations of [tokenProvider], not
    one, and they are handed different tokens. *)
Lemma single_flight_counterexample :
  let w := TokenCache.run two_tokens
             (TokenCache.two_callers 0 0 0 1 2 3)
             (fresh_process, [TokenCache.Start; TokenCache.Start]) in
  TokenCache.tokenCache fresh_process !! TokenCache.AZURE_SCOPE = None
  ∧ TokenCache.acquisitions w.1
      ≠ S (TokenCache.acquisitions fresh_process)
  ∧ w.2 !! 0%nat ≠ w.2 !! 1%nat.
Proof. vm_compute. repeat split; discriminate. Qed.

(** ** The middleware *)

Section MiddlewareFacts.
Import TokenCache Middleware.

Lemma bearer_headers_authorization tok (hs : gmap string string) :
  bearer_headers tok hs !! "authorization" = Some ("Bearer " +:+ tok).
Proof.
  unfold bearer_headers.
  rewrite !lookup_delete_ne by done. apply lookup_insert_eq.
Qed.

Lemma bearer_headers_x_api_key tok (hs : gmap string string) :
  bearer_headers tok hs !! "x-api-key" = None.
Proof.
  unfold bearer_headers.
  rewrite lookup_delete_ne by done. apply lookup_delete_eq.
Qed.

Lemma bearer_headers_api_key tok (hs : gmap string string) :
  bearer_headers tok hs !! "api-key" = None.
Proof. unfold bearer_headers. apply lookup_delete_eq. Qed.

Lemma bearer_headers_other tok (hs : gmap string string) k :
  k ≠ "authorization" → k ≠ "x-api-key" → k ≠ "api-key" →
  bearer_headers tok hs !! k = hs !! k.
Proof.
  intros H1 H2 H3. unfold bearer_headers.
  by rewrite !lookup_delete_ne, lookup_insert_ne.
Qed.

(** [split_head] cuts [s] in front of an occurrence of [sep], or nowhere. *)
Lemma split_head_spec sep s :
  ∃ rest, s = split_head sep s +:+ rest
          ∧ (rest = "" ∨ String.prefix sep rest = true).
Proof.
  induction s as [|c s IH].
  - exists "". cbn. destruct sep; auto.
  - cbn [split_head]. destruct (String.prefix sep (String c s)) eqn:Hpre.
    + exists (String c s). auto.
    + destruct IH as (rest & Heq & Hrest). exists rest.
      split; [| done].
      change (String c s = String c (split_head sep s +:+ rest)).
      by rewrite <- Heq.
Qed.

Example split_head_azure :
  split_head "/openai/"
    "https://res.openai.azure.com/openai/deployments/gpt-4/chat/completions"
  = "https://res.openai.azure.com".
Proof. reflexivity. Qed.

Example split_head_no_separator :
  split_head "/openai/" "https://openrouter.ai/api/v1/chat/completions"
  = "https://openrouter.ai/api/v1/chat/completions".
Proof. reflexivity. Qed.

Example dynamicUrl_azure :
  UrlVariant.dynamicUrl "https://res.openai.azure.com" "gpt-4o" "2024-10-21"
  = "https://res.openai.azure.com/openai/deployments/gpt-4o/chat/completions?api-version=2024-10-21".
Proof. reflexivity. Qed.

Example deployment_info_empty_version :
  deployment_info
    {| headers := ∅; selectedProvider := None;
       azureDeployment := Some "gpt-4o"; azureApiVersion := Some "" |}
  = None.
Proof. reflexivity. Qed.

End MiddlewareFacts.

(** Case analysis following the branches of [azureAuthMiddleware]: no
    provider, a reference with no object behind it, a provider that is not
    an Azure one, token obtained, token refused. *)
Ltac middleware_cases tokenProvider now now' request w :=
  unfold UrlVariant.azureAuthMiddleware, HeaderVariant.azureAuthMiddleware;
  let ref := fresh "ref" in
  let p := fresh "p" in
  let Hp := fresh "Hp" in
  let Hazure := fresh "Hazure" in
  let Htok := fresh "Htok" in
  let a := fresh "a" in
  let tok := fresh "tok" in
  let err := fresh "err" in
  destruct (Middleware.selectedProvider request) as [ref|] eqn:?;
  [ destruct (Middleware.store w !! ref) as [p|] eqn:Hp;
    [ destruct (bool_decide (Middleware.auth_type p = Some "azure"))
        eqn:Hazure;
      [ apply bool_decide_eq_true in Hazure;
        destruct (TokenCache.getAzureToken tokenProvider now now'
                    (Middleware.auth w)) as [a [tok|err]] eqn:Htok
      | apply bool_decide_eq_false in Hazure ]
    | ]
  | ];
  cbn [negb].

(** C9. When no provider is selected, or the selected provider's
    [auth_type] is not ['azure'], both copies of [azureAuthMiddleware]
    return the state (token cache, acquisition count, provider objects) and
    the request as they were and send no reply. *)
Theorem azureAuthMiddleware_skips_other_providers
    (tokenProvider : nat → TokenCache.Outcome) (now now' : Z)
    (request : Middleware.Request) (w : Middleware.World) :
  (Middleware.selectedProvider request = None
   ∨ ∃ ref p, Middleware.selectedProvider request = Some ref
              ∧ Middleware.store w !! ref = Some p
              ∧ Middleware.auth_type p ≠ Some "azure") →
  UrlVariant.azureAuthMiddleware tokenProvider now now' request w
    = (w, request, None)
  ∧ HeaderVariant.azureAuthMiddleware tokenProvider now now' request w
    = (w, request, None).
Proof.
  intros [Hnone | (ref' & p' & Hsel & Hst & Hne)];
    middleware_cases tokenProvider now now' request w;
    try done; simplify_eq.
Qed.

(** A request routed to the static-key provider of the sample world. *)
Lemma azureAuthMiddleware_skips_other_providers_witness :
  UrlVariant.azureAuthMiddleware two_tokens 0 5 (sample_request 1) sample_world
    = (sample_world, sample_request 1, None)
  ∧ HeaderVariant.azureAuthMiddleware two_tokens 0 5 (sample_request 1)
      sample_world
    = (sample_world, sample_request 1, None).
Proof.
  apply (azureAuthMiddleware_skips_other_providers two_tokens 0 5
           (sample_request 1) sample_world).
  right. exists 1%nat, openrouter.
  split; [reflexivity |]. split; [reflexivity | discriminate].
Defined.

(** C7. For a request routed to an Azure provider, when [getAzureToken]
    returns a token, both copies of the middleware send no error reply and
    leave the request with [authorization] equal to ["Bearer "] followed by
    that token and without the [x-api-key] and [api-key] headers. *)
Theorem azureAuthMiddleware_bearer_header
    (tokenProvider : nat → TokenCache.Outcome) (now now' : Z)
    (request : Middleware.Request) (w : Middleware.World)
    (ref : nat) (p : Middleware.Provider)
    (a : TokenCache.AuthState) (tok : string) :
  Middleware.selectedProvider request = Some ref →
  Middleware.store w !! ref = Some p →
  Middleware.auth_type p = Some "azure" →
  TokenCache.getAzureToken tokenProvider now now' (Middleware.auth w)
    = (a, TokenCache.Resolved tok) →
  let url := UrlVariant.azureAuthMiddleware tokenProvider now now' request w in
  let hdr :=
    HeaderVariant.azureAuthMiddleware tokenProvider now now' request w in
  (url.2 = None
   ∧ Middleware.headers url.1.2 !! "authorization" = Some ("Bearer " +:+ tok)
   ∧ Middleware.headers url.1.2 !! "x-api-key" = None
   ∧ Middleware.headers url.1.2 !! "api-key" = None)
  ∧ (hdr.2 = None
     ∧ Middleware.headers hdr.1.2 !! "authorization" = Some ("Bearer " +:+ tok)
     ∧ Middleware.headers hdr.1.2 !! "x-api-key" = None
     ∧ Middleware.headers hdr.1.2 !! "api-key" = None).
Proof.
  intros Hsel Hst Haz Hg url hdr. subst url hdr.
  assert (Hd : bool_decide (Middleware.auth_type p = Some "azure") = true)
    by by apply bool_decide_eq_true.
  unfold UrlVariant.azureAuthMiddleware, HeaderVariant.azureAuthMiddleware.
  rewrite Hsel, Hst, Hd, Hg. cbn.
  split.
  - by rewrite bearer_headers_authorization, bearer_headers_x_api_key,
      bearer_headers_api_key.
  - destruct (Middleware.deployment_info request) as [[d v]|];
      rewrite ?lookup_insert_ne by done;
      by rewrite bearer_headers_authorization, bearer_headers_x_api_key,
        bearer_headers_api_key.
Qed.

(** A request routed to the Azure provider of the sample world. *)
Lemma azureAuthMiddleware_bearer_header_witness :
  let url :=
    UrlVariant.azureAuthMiddleware two_tokens 0 5 (sample_request 0)
      sample_world in
  let hdr :=
    HeaderVariant.azureAuthMiddleware two_tokens 0 5 (sample_request 0)
      sample_world in
  (url.2 = None
   ∧ Middleware.headers url.1.2 !! "authorization" = Some "Bearer tokenA"
   ∧ Middleware.headers url.1.2 !! "x-api-key" = None
   ∧ Middleware.headers url.1.2 !! "api-key" = None)
  ∧ (hdr.2 = None
     ∧ Middleware.headers hdr.1.2 !! "authorization" = Some "Bearer tokenA"
     ∧ Middleware.headers hdr.1.2 !! "x-api-key" = None
     ∧ Middleware.headers hdr.1.2 !! "api-key" = None).
Proof.
  apply (azureAuthMiddleware_bearer_header two_tokens 0 5 (sample_request 0)
           sample_world 0 azure_gpt4
           (TokenCache.getAzureToken two_tokens 0 5 fresh_process).1);
    reflexivity.
Defined.

Section UntypedFacts.
Import TokenCache.

Variable tokenProvider : nat → Outcome.

(** On provider objects with a string [api_base_url] the embedding without
    types is the typed one. *)
Lemma untyped_url_typed now now' request (w : Middleware.World) :
  Untyped.UrlVariant.azureAuthMiddleware tokenProvider now now' request
    (Untyped.of_typed_world w)
  = let out := UrlVariant.azureAuthMiddleware tokenProvider now now' request w in
    (Untyped.of_typed_world out.1.1, out.1.2, out.2).
Proof.
  unfold Untyped.UrlVariant.azureAuthMiddleware,
    UrlVariant.azureAuthMiddleware, Untyped.of_typed_world.
  cbn [Untyped.store Untyped.auth].
  destruct (Middleware.selectedProvider request) as [ref|]; [| done].
  rewrite lookup_fmap.
  destruct (Middleware.store w !! ref) as [[nm u ty key ms]|]; [| done].
  cbn [fmap option_fmap option_map Untyped.of_typed Untyped.auth_type
       Untyped.api_key Middleware.name Middleware.api_base_url
       Middleware.auth_type Middleware.api_key Middleware.models].
  destruct (bool_decide (ty = Some "azure")); [| done].
  cbn [negb].
  destruct (getAzureToken tokenProvider now now' (Middleware.auth w))
    as [a [tok|err]]; [| done].
  destruct (Middleware.deployment_info request) as [[d v]|];
    destruct (Middleware.truthy key);
    cbn; by rewrite fmap_insert.
Qed.

Lemma untyped_hdr_typed now now' request (w : Middleware.World) :
  Untyped.HeaderVariant.azureAuthMiddleware tokenProvider now now' request
    (Untyped.of_typed_world w)
  = let out :=
      HeaderVariant.azureAuthMiddleware tokenProvider now now' request w in
    (Untyped.of_typed_world out.1.1, out.1.2, out.2).
Proof.
  unfold Untyped.HeaderVariant.azureAuthMiddleware,
    HeaderVariant.azureAuthMiddleware, Untyped.of_typed_world.
  cbn [Untyped.store Untyped.auth].
  destruct (Middleware.selectedProvider request) as [ref|]; [| done].
  rewrite lookup_fmap.
  destruct (Middleware.store w !! ref) as [[nm u ty key ms]|]; [| done].
  cbn [fmap option_fmap option_map Untyped.of_typed Untyped.auth_type
       Untyped.api_key Middleware.name Middleware.api_base_url
       Middleware.auth_type Middleware.api_key Middleware.models].
  destruct (bool_decide (ty = Some "azure")); [| done].
  cbn [negb].
  destruct (getAzureToken tokenProvider now now' (Middleware.auth w))
    as [a [tok|err]]; [| done].
  destruct (Middleware.truthy key);
    cbn; by rewrite fmap_insert.
Qed.

End UntypedFacts.

(** C10, as the code behaves.  For the same Azure provider, request and
    cache state: when the token provider refuses, both copies give the
    same result, the error reply with request and providers untouched.
    When a token is obtained, both copies set [authorization] to
    ["Bearer "] and the token, remove [x-api-key] and [api-key], delete a
    truthy [api_key] from the provider object and keep a falsy one, and
    end in the same token cache state.  All other headers but
    [x-azure-deployment] and [x-azure-api-version], which the URL copy
    leaves as they came, are the same; so are the other provider fields
    but [api_base_url], which the header copy leaves as it was, and all
    other provider objects.  The header copy sends no reply; the URL copy
    sends none either when the request lacks a deployment or a version or
    [api_base_url] is a string. *)
Theorem azureAuthMiddleware_variants_compare
    (tokenProvider : nat → TokenCache.Outcome) (now now' : Z)
    (request : Middleware.Request) (w : Untyped.World)
    (ref : nat) (p : Untyped.Provider) :
  Middleware.selectedProvider request = Some ref →
  Untyped.store w !! ref = Some p →
  Untyped.auth_type p = Some "azure" →
  let url :=
    Untyped.UrlVariant.azureAuthMiddleware tokenProvider now now' request w in
  let hdr :=
    Untyped.HeaderVariant.azureAuthMiddleware tokenProvider now now'
      request w in
  (∀ a err,
     TokenCache.getAzureToken tokenProvider now now' (Untyped.auth w)
       = (a, TokenCache.Rejected err) →
     url = hdr
     ∧ url = ({| Untyped.auth := a; Untyped.store := Untyped.store w |},
              request, Some Middleware.auth_failed))
  ∧ (∀ a tok,
       TokenCache.getAzureToken tokenProvider now now' (Untyped.auth w)
         = (a, TokenCache.Resolved tok) →
       (Middleware.headers url.1.2 !! "authorization"
          = Some ("Bearer " +:+ tok)
        ∧ Middleware.headers hdr.1.2 !! "authorization"
          = Some ("Bearer " +:+ tok))
       ∧ (Middleware.headers url.1.2 !! "x-api-key" = None
          ∧ Middleware.headers hdr.1.2 !! "x-api-key" = None)
       ∧ (Middleware.headers url.1.2 !! "api-key" = None
          ∧ Middleware.headers hdr.1.2 !! "api-key" = None)
       ∧ (∃ p1 p2,
            Untyped.store url.1.1 !! ref = Some p1
            ∧ Untyped.store hdr.1.1 !! ref = Some p2
            ∧ Untyped.api_key p1
              = (if Middleware.truthy (Untyped.api_key p)
                 then None else Untyped.api_key p)
            ∧ Untyped.api_key p2 = Untyped.api_key p1
            ∧ (Untyped.name p1 = Untyped.name p
               ∧ Untyped.auth_type p1 = Untyped.auth_type p
               ∧ Untyped.models p1 = Untyped.models p)
            ∧ (Untyped.name p2 = Untyped.name p
               ∧ Untyped.auth_type p2 = Untyped.auth_type p
               ∧ Untyped.models p2 = Untyped.models p)
            ∧ Untyped.api_base_url p2 = Untyped.api_base_url p
            ∧ Untyped.api_base_url p1
              = match Middleware.deployment_info request,
                      Untyped.api_base_url p with
                | Some (d, v), Some u =>
                    Some (UrlVariant.dynamicUrl
                            (Middleware.split_head "/openai/" u) d v)
                | _, _ => Untyped.api_base_url p
                end)
       ∧ (Untyped.auth url.1.1 = a ∧ Untyped.auth hdr.1.1 = a)
       ∧ (∀ r : nat, r ≠ ref →
            Untyped.store url.1.1 !! r = Untyped.store w !! r
            ∧ Untyped.store hdr.1.1 !! r = Untyped.store w !! r)
       ∧ (∀ k : string, k ≠ "x-azure-deployment" →
            k ≠ "x-azure-api-version" →
            Middleware.headers url.1.2 !! k = Middleware.headers hdr.1.2 !! k)
       ∧ (∀ k : string, k = "x-azure-deployment" ∨ k = "x-azure-api-version" →
            Middleware.headers url.1.2 !! k = Middleware.headers request !! k)
       ∧ Middleware.set_headers ∅ url.1.2 = Middleware.set_headers ∅ hdr.1.2
       ∧ hdr.2 = None
       ∧ (Middleware.deployment_info request = None
          ∨ is_Some (Untyped.api_base_url p) → url.2 = None)).
Proof.
  intros Hsel Hst Haz url hdr. subst url hdr.
  unfold Untyped.UrlVariant.azureAuthMiddleware,
    Untyped.HeaderVariant.azureAuthMiddleware.
  rewrite Hsel, Hst, bool_decide_eq_true_2 by done. cbn [negb].
  split.
  - intros a err Hg. by rewrite Hg.
  - intros a tok Hg. rewrite Hg.
    assert (Hkeep : ∀ k : string,
              k = "x-azure-deployment" ∨ k = "x-azure-api-version" →
              Middleware.bearer_headers tok (Middleware.headers request) !! k
              = Middleware.headers request !! k)
      by (intros k [-> | ->]; by apply bearer_headers_other).
    destruct p as [nm u ty key ms].
    cbn [Untyped.api_key Untyped.api_base_url Untyped.name
         Untyped.auth_type Untyped.models] in *.
    destruct (Middleware.deployment_info request) as [[d v]|] eqn:Hd;
      destruct (Middleware.truthy key) eqn:Hk;
      destruct u as [u|];
      cbn [fst snd Untyped.store Untyped.auth Middleware.headers
           Middleware.set_headers Untyped.delete_api_key
           Untyped.set_api_base_url Untyped.api_key Untyped.api_base_url
           Untyped.name Untyped.auth_type Untyped.models];
      rewrite ?lookup_insert_eq;
      rewrite ?(lookup_insert_ne _ "x-azure-api-version") by done;
      rewrite ?(lookup_insert_ne _ "x-azure-deployment") by done;
      rewrite ?bearer_headers_authorization, ?bearer_headers_x_api_key,
        ?bearer_headers_api_key;
      (split; [done |]); (split; [done |]); (split; [done |]);
      (split; [eexists _, _; by repeat (split; [done |]) |]);
      (split; [done |]);
      (split; [intros r Hr; by rewrite !lookup_insert_ne |]);
      (split; [intros k H1 H2; by rewrite ?lookup_insert_ne |]);
      (split; [exact Hkeep |]);
      (split; [done |]); (split; [done |]);
      try done; intros [? | [? ?]]; done.
Qed.

(** The sample Azure provider, whose [api_base_url] is a string. *)
Lemma azureAuthMiddleware_variants_compare_witness :
  let w := Untyped.of_typed_world sample_world in
  let url :=
    Untyped.UrlVariant.azureAuthMiddleware two_tokens 0 5 (sample_request 0)
      w in
  let hdr :=
    Untyped.HeaderVariant.azureAuthMiddleware two_tokens 0 5
      (sample_request 0) w in
  Middleware.headers url.1.2 !! "authorization" = Some "Bearer tokenA"
  ∧ Middleware.headers hdr.1.2 !! "authorization" = Some "Bearer tokenA"
  ∧ Middleware.headers url.1.2 !! "x-api-key" = None
  ∧ Middleware.headers hdr.1.2 !! "x-api-key" = None
  ∧ hdr.2 = None ∧ url.2 = None.
Proof.
  intros w url hdr.
  destruct (azureAuthMiddleware_variants_compare two_tokens 0 5
              (sample_request 0) w 0 (Untyped.of_typed azure_gpt4)
              eq_refl eq_refl eq_refl) as [_ Hok].
  destruct (Hok (TokenCache.getAzureToken two_tokens 0 5 fresh_process).1
              "tokenA" eq_refl)
    as ([H1 H2] & [H3 H4] & _ & _ & _ & _ & _ & _ & _ & H5 & H6).
  repeat (split; [assumption |]). apply H6. right. by eexists.
Defined.

(** C10 as stated fails: for an Azure provider object without
    [api_base_url] and a request with a deployment and a version, the URL
    copy answers with the error reply and the header copy with none, so
    the two differ in more than the carrier of the deployment. *)
Lemma variants_agree_counterexample :
  let url :=
    Untyped.UrlVariant.azureAuthMiddleware two_tokens 0 5 (sample_request 0)
      bare_world in
  let hdr :=
    Untyped.HeaderVariant.azureAuthMiddleware two_tokens 0 5
      (sample_request 0) bare_world in
  Untyped.store bare_world !! 0%nat = Some bare_azure
  ∧ Untyped.auth_type bare_azure = Some "azure"
  ∧ url.2 = Some {| Middleware.code := 500;
                    Middleware.error := "Azure authentication failed" |}
  ∧ hdr.2 = None
  ∧ url.2 ≠ hdr.2.
Proof. vm_compute. repeat split; discriminate. Qed.

(** C2, as the code behaves.  Both copies of the middleware leave every
    provider object other than the selected one untouched, and on the
    selected one they never change [name], [auth_type] or [models].  The
    selected object is left exactly as it was when it is not an Azure
    provider or when the error reply is sent.  Otherwise a truthy [api_key]
    is deleted from it, a falsy one is kept; the header copy keeps
    [api_base_url], and the URL copy keeps it when the request lacks a
    deployment or an API version and overwrites it with the deployment URL
    when it has both. *)
Theorem azureAuthMiddleware_provider_frame
    (tokenProvider : nat → TokenCache.Outcome) (now now' : Z)
    (request : Middleware.Request) (w : Middleware.World) :
  let url := UrlVariant.azureAuthMiddleware tokenProvider now now' request w in
  let hdr :=
    HeaderVariant.azureAuthMiddleware tokenProvider now now' request w in
  (∀ r : nat, Middleware.selectedProvider request ≠ Some r →
     Middleware.store url.1.1 !! r = Middleware.store w !! r
     ∧ Middleware.store hdr.1.1 !! r = Middleware.store w !! r)
  ∧ (∀ (ref : nat) (p : Middleware.Provider),
       Middleware.selectedProvider request = Some ref →
       Middleware.store w !! ref = Some p →
       ∃ p1 p2 : Middleware.Provider,
         Middleware.store url.1.1 !! ref = Some p1
         ∧ Middleware.store hdr.1.1 !! ref = Some p2
         ∧ (Middleware.name p1 = Middleware.name p
            ∧ Middleware.auth_type p1 = Middleware.auth_type p
            ∧ Middleware.models p1 = Middleware.models p)
         ∧ (Middleware.name p2 = Middleware.name p
            ∧ Middleware.auth_type p2 = Middleware.auth_type p
            ∧ Middleware.models p2 = Middleware.models p)
         ∧ (Middleware.auth_type p ≠ Some "azure" ∨ url.2 ≠ None ∨ hdr.2 ≠ None →
            p1 = p ∧ p2 = p)
         ∧ (Middleware.auth_type p = Some "azure" → url.2 = None →
            Middleware.api_key p1
              = (if Middleware.truthy (Middleware.api_key p)
                 then None else Middleware.api_key p)
            ∧ Middleware.api_key p2 = Middleware.api_key p1
            ∧ Middleware.api_base_url p2 = Middleware.api_base_url p
            ∧ Middleware.api_base_url p1
              = match Middleware.deployment_info request with
                | Some (d, v) =>
                    UrlVariant.dynamicUrl
                      (Middleware.split_head "/openai/"
                         (Middleware.api_base_url p)) d v
                | None => Middleware.api_base_url p
                end)).
Proof.
  intros url hdr. subst url hdr.
  middleware_cases tokenProvider now now' request w; cbn; split;
    try (intros r Hr; try done; assert (ref ≠ r) by congruence;
         by rewrite ?lookup_insert_ne);
    intros ref' p' Hsel Hst; simplify_eq.
  - rewrite !lookup_insert_eq. eexists _, _.
    split; [done |]. split; [done |].
    destruct (Middleware.deployment_info request) as [[d v]|];
      destruct (Middleware.truthy (Middleware.api_key p));
      cbn; (split; [done |]); (split; [done |]);
      (split; [by intros [? | [? | ?]] | done]).
  - exists p, p. by repeat (split; [done |]).
  - exists p, p. do 4 (split; [done |]).
    split; [done |]. intros Haz. by rewrite Haz in Hazure.
Qed.

(** C2 as stated fails: handling one request for the sample Azure provider
    deletes [api_key] from the shared provider object in both copies, and
    the URL copy also replaces its [api_base_url]. *)
Lemma provider_unchanged_counterexample :
  let url :=
    UrlVariant.azureAuthMiddleware two_tokens 0 5 (sample_request 0)
      sample_world in
  let hdr :=
    HeaderVariant.azureAuthMiddleware two_tokens 0 5 (sample_request 0)
      sample_world in
  Middleware.store sample_world !! 0%nat = Some azure_gpt4
  ∧ Middleware.api_key <$> Middleware.store url.1.1 !! 0%nat = Some None
  ∧ Middleware.api_key <$> Middleware.store hdr.1.1 !! 0%nat = Some None
  ∧ Middleware.api_base_url <$> Middleware.store url.1.1 !! 0%nat
    = Some "https://res.openai.azure.com/openai/deployments/gpt-4o-deployment/chat/completions?api-version=2024-10-21"
  ∧ Middleware.store url.1.1 !! 0%nat ≠ Middleware.store sample_world !! 0%nat
  ∧ Middleware.store hdr.1.1 !! 0%nat ≠ Middleware.store sample_world !! 0%nat.
Proof. vm_compute. repeat split; discriminate. Qed.

(** ** Configuration loading *)

Section ConfigFacts.
Import Config.

Variable az_cli : nat → option string.
Variable DEFAULT_CONFIG : gmap string JSON.

(** Token injection reads and writes the [providers]/[Providers] entry
    only: any other entry can be replaced or removed beforehand or
    afterwards, with the same result. *)
Lemma inject_tokens_frame (k : string) (v : option JSON)
    (doc : gmap string JSON) :
  k ≠ "providers" → k ≠ "Providers" →
  inject_tokens az_cli (partial_alter (λ _, v) k doc)
  = with_field k v (inject_tokens az_cli doc).
Proof.
  intros Hk1 Hk2. unfold inject_tokens. cbn zeta.
  rewrite (lookup_partial_alter_ne _ doc k "providers") by done.
  set (key := if truthy (doc !! "providers")
              then "providers" else "Providers").
  assert (Hkey : k ≠ key) by (subst key; by destruct (truthy _)).
  rewrite (lookup_partial_alter_ne _ doc k key) by done.
  destruct (truthy (doc !! key)); [| done].
  destruct (doc !! key) as [[| | | |providers|]|]; try done.
  destruct (inject az_cli 0 providers) as [[k' providers1]|]; [| done].
  cbn. f_equal. unfold insert, map_insert.
  by apply partial_alter_partial_alter_ne.
Qed.

Lemma inject_tokens_lookup (k : string) (doc config : gmap string JSON) :
  k ≠ "providers" → k ≠ "Providers" →
  inject_tokens az_cli doc = Loaded config →
  config !! k = doc !! k.
Proof.
  intros Hk1 Hk2. unfold inject_tokens. cbn zeta.
  set (key := if truthy (doc !! "providers")
              then "providers" else "Providers").
  assert (Hkey : key ≠ k) by (subst key; by destruct (truthy _)).
  destruct (truthy (doc !! key)); [| by intros [= <-]].
  destruct (doc !! key) as [[| | | |providers|]|]; try done.
  destruct (inject az_cli 0 providers) as [[k' providers1]|]; [| done].
  intros [= <-]. by rewrite lookup_insert_ne.
Qed.

End ConfigFacts.

(** C6, as the code behaves.  [readConfigFile] does not look at the
    [Router] table: replacing the [Router] entry of a parsed document by
    any value, or removing it, gives the same outcome as loading the
    document unchanged, except that a loaded configuration carries the
    replaced entry; and a loaded configuration has the [Router] entry of
    the document as it was written. *)
Theorem readConfigFile_ignores_Router
    (az_cli : nat → option string)
    (DEFAULT_CONFIG doc : gmap string Config.JSON)
    (a : Config.Answers) (write_ok : bool) :
  (∀ r : option Config.JSON,
     Config.readConfigFile az_cli DEFAULT_CONFIG
       (Config.Parsed (partial_alter (λ _, r) "Router" doc)) a write_ok
     = Config.with_field "Router" r
         (Config.readConfigFile az_cli DEFAULT_CONFIG (Config.Parsed doc)
            a write_ok))
  ∧ (∀ config : gmap string Config.JSON,
       Config.readConfigFile az_cli DEFAULT_CONFIG (Config.Parsed doc)
         a write_ok = Config.Loaded config →
       config !! "Router" = doc !! "Router").
Proof.
  split.
  - intros r. cbn. by apply inject_tokens_frame.
  - intros config. cbn. by apply inject_tokens_lookup.
Qed.

(** C6 as stated fails: a document whose [Router] table has no [default]
    entry, and whose only route names a provider and a model that are not
    configured, is loaded and returned as it is. *)
Lemma missing_default_route_counterexample :
  (∃ routes : gmap string Config.JSON,
     no_default_doc !! "Router" = Some (Config.JObj routes)
     ∧ routes !! "default" = None)
  ∧ Config.readConfigFile az_logged_out ∅ (Config.Parsed no_default_doc)
      no_answers true
    = Config.Loaded no_default_doc.
Proof.
  split.
  - eexists. split; [vm_compute; reflexivity | vm_compute; reflexivity].
  - vm_compute. reflexivity.
Qed.

Section EnvFacts.
Import Config.

Variable ToString : JSON → string.

(** The names [setenv] can add: not empty, without [=] and without NUL. *)
Lemma c_str_no_equals_nul (n : string) :
  env_name n = true → c_str n = n ∧ n ≠ "" ∧ has_equals n = false.
Proof.
  unfold env_name. intros H.
  apply andb_prop in H as [H Hc]. apply andb_prop in H as [Hn He].
  apply String.eqb_eq in Hc. apply negb_true_iff in Hn, He.
  by apply String.eqb_neq in Hn.
Qed.

Lemma c_str_idemp (s : string) : c_str (c_str s) = c_str s.
Proof.
  induction s as [|c s IH]; [done |]. cbn.
  destruct (Ascii.eqb c Ascii.zero) eqn:Hc; [done |]. cbn.
  by rewrite Hc, IH.
Qed.

Lemma setenv_lookup name value (env : gmap string string) n :
  setenv name value env !! n
  = if bool_decide (c_str name = n)
       && negb (String.eqb (c_str name) "" || has_equals (c_str name))
    then Some (c_str value) else env !! n.
Proof.
  unfold setenv. cbn zeta.
  destruct (String.eqb (c_str name) "" || has_equals (c_str name));
    [by rewrite andb_false_r |].
  rewrite andb_true_r. case_bool_decide as Hn.
  - subst n. apply lookup_insert_eq.
  - by apply lookup_insert_ne.
Qed.

(** Nothing is ever stored under a name that is not an environment
    name. *)
Lemma assign_env_bad_name config keys (env : gmap string string) n :
  env_name n = false →
  (assign_env ToString config keys env).1 !! n = env !! n.
Proof.
  intros Hn. revert env. induction keys as [|k keys IH]; intros env; [done |].
  cbn [assign_env]. destruct (config !! k) as [v|]; [| apply IH].
  destruct (printable v); [| done]. rewrite IH, setenv_lookup.
  case_bool_decide as Hk; [| done]. subst n. cbn [andb].
  destruct (String.eqb (c_str k) "" || has_equals (c_str k)) eqn:Hbad;
    [done |].
  apply orb_false_elim in Hbad as [Hne Heq].
  unfold env_name in Hn. by rewrite Hne, Heq, c_str_idemp, String.eqb_refl in Hn.
Qed.

(** An entry of the environment is never removed. *)
Lemma assign_env_keeps config keys (env : gmap string string) n :
  is_Some (env !! n) →
  is_Some ((assign_env ToString config keys env).1 !! n).
Proof.
  revert env. induction keys as [|k keys IH]; intros env Hn; [done |].
  cbn [assign_env]. destruct (config !! k) as [v|]; [| by apply IH].
  destruct (printable v); [| done]. apply IH. rewrite setenv_lookup.
  by destruct (_ && _).
Qed.

(** A key that is an environment name is present after a loop that came
    to its end. *)
Lemma assign_env_present config keys (env : gmap string string) k v :
  (assign_env ToString config keys env).2 = true →
  k ∈ keys → config !! k = Some v → env_name k = true →
  is_Some ((assign_env ToString config keys env).1 !! k).
Proof.
  intros Hok Hin Hk Hname.
  destruct (c_str_no_equals_nul k Hname) as (Hc & Hne & Heq).
  revert env Hok. induction keys as [|k1 keys IH]; intros env Hok.
  - by apply elem_of_nil in Hin.
  - cbn [assign_env] in *. apply elem_of_cons in Hin as [<- | Hin].
    + rewrite Hk in *. destruct (printable v); [| done].
      apply assign_env_keeps. rewrite setenv_lookup, Hc.
      rewrite bool_decide_eq_true_2 by done.
      apply String.eqb_neq in Hne. rewrite Hne, Heq. by eexists.
    + destruct (config !! k1) as [v1|]; [| by apply IH].
      destruct (printable v1); [| done]. by apply IH.
Qed.

(** Its value is the converted value when no other key shares its C
    name. *)
Lemma assign_env_value config keys (env : gmap string string) k v :
  (assign_env ToString config keys env).2 = true →
  config !! k = Some v → env_name k = true →
  (∀ k2, is_Some (config !! k2) → c_str k2 = k → k2 = k) →
  k ∈ keys ∨ env !! k = Some (c_str (ToString v)) →
  (assign_env ToString config keys env).1 !! k = Some (c_str (ToString v)).
Proof.
  intros Hok Hk Hname Huniq.
  destruct (c_str_no_equals_nul k Hname) as (Hc & Hne & Heq).
  apply String.eqb_neq in Hne.
  revert env Hok. induction keys as [|k1 keys IH]; intros env Hok Hin.
  - destruct Hin as [Hin | Henv]; [by apply elem_of_nil in Hin | done].
  - cbn [assign_env] in *.
    destruct (config !! k1) as [v1|] eqn:Hk1.
    + destruct (printable v1); [| done]. apply IH; [done |].
      rewrite setenv_lookup. case_bool_decide as Hn; cbn [andb].
      * assert (k1 = k) as -> by (apply Huniq; [by eexists | done]).
        rewrite Hk in Hk1. injection Hk1 as <-.
        rewrite Hc, Hne, Heq. by right.
      * destruct Hin as [Hin | Henv]; [| by right].
        apply elem_of_cons in Hin as [-> | Hin]; [by rewrite Hc in Hn |].
        by left.
    + apply IH; [done |]. destruct Hin as [Hin | Henv]; [| by right].
      apply elem_of_cons in Hin as [-> | Hin]; [congruence | by left].
Qed.

(** Only the C names of keys of the configuration are written. *)
Lemma assign_env_frame config keys (env : gmap string string) n :
  (∀ k, is_Some (config !! k) → c_str k ≠ n) →
  (assign_env ToString config keys env).1 !! n = env !! n.
Proof.
  intros Hn. revert env. induction keys as [|k keys IH]; intros env; [done |].
  cbn [assign_env]. destruct (config !! k) as [v|] eqn:Hk; [| apply IH].
  destruct (printable v); [| done]. rewrite IH, setenv_lookup.
  rewrite bool_decide_eq_false_2; [done |]. apply Hn. by eexists.
Qed.

End EnvFacts.

(** C8, as the code behaves.  When [initConfig] returns a configuration,
    every top-level key of it that is an environment name (not empty,
    without [=] and without NUL) is an entry of the process environment
    afterwards, holding the converted value when no other key has the same
    C name; under any other name the environment is what it was. *)
Theorem initConfig_exposes_env_names
    (az_cli : nat → option string)
    (DEFAULT_CONFIG : gmap string Config.JSON)
    (ToString : Config.JSON → string)
    (own_keys : gmap string Config.JSON → list string)
    (file : Config.ConfigFile) (a : Config.Answers) (write_ok : bool)
    (env env' : gmap string string) (config : gmap string Config.JSON) :
  (∀ k, k ∈ own_keys config ↔ is_Some (config !! k)) →
  Config.initConfig az_cli DEFAULT_CONFIG ToString own_keys file a write_ok
    env = (Config.Ready config, env') →
  (∀ k v, config !! k = Some v → env_name k = true →
     is_Some (env' !! k)
     ∧ ((∀ k2, is_Some (config !! k2) → Config.c_str k2 = k → k2 = k) →
        env' !! k = Some (Config.c_str (ToString v))))
  ∧ (∀ n, env_name n = false → env' !! n = env !! n).
Proof.
  intros Hkeys. unfold Config.initConfig.
  destruct (Config.readConfigFile az_cli DEFAULT_CONFIG file a write_ok)
    as [config'| |]; [| done | done].
  destruct (Config.assign_env ToString config' (own_keys config') env)
    as [env1 [|]] eqn:Hassign; [| done].
  intros [= -> <-].
  assert (Hfst : (Config.assign_env ToString config (own_keys config) env).1
                 = env1) by by rewrite Hassign.
  assert (Hsnd : (Config.assign_env ToString config (own_keys config) env).2
                 = true) by by rewrite Hassign.
  rewrite <- Hfst. split.
  - intros k v Hk Hname.
    assert (Hin : k ∈ own_keys config) by (apply Hkeys; by eexists).
    split; [by apply (assign_env_present ToString config _ env k v) |].
    intros Huniq. apply assign_env_value; auto.
  - intros n Hn. by apply assign_env_bad_name.
Qed.

(** The sample document: [APIKEY] reaches the environment, [A=B] does
    not. *)
Lemma initConfig_exposes_env_names_witness :
  let env' :=
    (Config.initConfig az_logged_out ∅ sample_ToString sorted_keys
       (Config.Parsed odd_names_doc) no_answers true
       {[ "HOME" := "/root" ]}).2 in
  (∀ k v, odd_names_doc !! k = Some v → env_name k = true →
     is_Some (env' !! k)
     ∧ ((∀ k2, is_Some (odd_names_doc !! k2) → Config.c_str k2 = k →
           k2 = k) →
        env' !! k = Some (Config.c_str (sample_ToString v))))
  ∧ (∀ n, env_name n = false →
       env' !! n = ({[ "HOME" := "/root" ]} : gmap string string) !! n).
Proof.
  apply (initConfig_exposes_env_names az_logged_out ∅ sample_ToString
           sorted_keys (Config.Parsed odd_names_doc) no_answers true
           {[ "HOME" := "/root" ]} _ odd_names_doc).
  - intros k. unfold sorted_keys.
    rewrite list_elem_of_fmap. split.
    + intros ([k' v] & -> & Hin). apply elem_of_map_to_list in Hin.
      by eexists.
    + intros [v Hk]. exists (k, v). split; [done |].
      by apply elem_of_map_to_list.
  - reflexivity.
Defined.

(** C8 as stated fails: the sample document has the top-level keys [A=B]
    and the empty string; [initConfig] returns it, and neither is an entry
    of the environment afterwards. *)
Lemma env_entry_counterexample :
  let r :=
    Config.initConfig az_logged_out ∅ sample_ToString sorted_keys
      (Config.Parsed odd_names_doc) no_answers true {[ "HOME" := "/root" ]} in
  r.1 = Config.Ready odd_names_doc
  ∧ odd_names_doc !! "A=B" = Some (Config.JStr "1")
  ∧ odd_names_doc !! "" = Some (Config.JStr "2")
  ∧ r.2 !! "A=B" = None
  ∧ r.2 !! "" = None
  ∧ r.2 !! "APIKEY" = Some "your-secret-key".
Proof. vm_compute. repeat split; reflexivity. Qed.

(** * Further properties *)

(** ** Token cache: freshness, expiry, what is stored *)

(** X1. [getAzureToken] answers from the cache exactly when the scope has
    an entry whose [expiresAt] is strictly more than 60 seconds after the
    clock reading: then it returns that entry's token and leaves the state
    untouched.  With no entry, or an entry expiring 60 seconds ahead or
    sooner, it invokes [tokenProvider] once. *)
Theorem getAzureToken_answers_from_cache_iff
    (tokenProvider : nat → TokenCache.Outcome) (now now' : Z)
    (st : TokenCache.AuthState) :
  let r := TokenCache.getAzureToken tokenProvider now now' st in
  let cached := TokenCache.tokenCache st !! TokenCache.AZURE_SCOPE in
  (TokenCache.acquisitions r.1 = TokenCache.acquisitions st
   ↔ ∃ e, cached = Some e ∧ now + 60000 < TokenCache.expiresAt e)
  ∧ (∀ e, cached = Some e → now + 60000 < TokenCache.expiresAt e →
       r = (st, TokenCache.Resolved (TokenCache.token e)))
  ∧ (cached = None
     ∨ (∃ e, cached = Some e ∧ TokenCache.expiresAt e ≤ now + 60000) →
     TokenCache.acquisitions r.1 = S (TokenCache.acquisitions st)
     ∧ r.2 = tokenProvider (TokenCache.acquisitions st)).
Proof.
  intros r cached. subst r cached.
  destruct (TokenCache.tokenCache st !! TokenCache.AZURE_SCOPE) as [e|] eqn:Hc.
  - destruct (Z.lt_ge_cases (now + 60000) (TokenCache.expiresAt e)) as [Hlt|Hge].
    + rewrite (getAzureToken_hit _ _ _ _ (TokenCache.token e))
        by (rewrite Hc; by apply cached_token_fresh).
      split; [split; [eauto | done] |].
      split; [by intros e' [= <-] _ |].
      intros [? | (e' & [= <-] & ?)]; [done | lia].
    + rewrite getAzureToken_miss
        by (rewrite Hc; by apply cached_token_stale).
      rewrite getAzureToken_resume_fst_acquisitions. cbn.
      split; [split; [lia | intros (e' & [= <-] & ?); lia] |].
      split; [intros e' [= <-] ?; lia |].
      intros _. by destruct (tokenProvider (TokenCache.acquisitions st)).
  - rewrite getAzureToken_miss by (by rewrite Hc).
    rewrite getAzureToken_resume_fst_acquisitions. cbn.
    split; [split; [lia | by intros (e' & ? & ?)] |].
    split; [done |].
    intros _. by destruct (tokenProvider (TokenCache.acquisitions st)).
Qed.

(** X2. Forty-nine minutes after the clock reading at which a token was
    stored, or later, the next call no longer uses it: it invokes
    [tokenProvider] a second time and returns that outcome. *)
Theorem getAzureToken_refresh_from_49_minutes
    (tokenProvider : nat → TokenCache.Outcome)
    (now0 t0 now1 now1' : Z) (st st1 : TokenCache.AuthState) (tok : string) :
  TokenCache.cached_token now0
    (TokenCache.tokenCache st !! TokenCache.AZURE_SCOPE) = None →
  TokenCache.getAzureToken tokenProvider now0 t0 st
    = (st1, TokenCache.Resolved tok) →
  t0 + 49 * 60 * 1000 ≤ now1 →
  let r := TokenCache.getAzureToken tokenProvider now1 now1' st1 in
  TokenCache.acquisitions r.1 = S (S (TokenCache.acquisitions st))
  ∧ r.2 = tokenProvider (S (TokenCache.acquisitions st)).
Proof.
  intros Hmiss Hfirst Hnow r. subst r.
  rewrite getAzureToken_miss in Hfirst by done.
  destruct (tokenProvider (TokenCache.acquisitions st)) as [tok'|err] eqn:Htp;
    cbn in Hfirst; [| done].
  injection Hfirst as <- <-.
  rewrite getAzureToken_miss.
  - rewrite getAzureToken_resume_fst_acquisitions. cbn.
    by destruct (tokenProvider (S (TokenCache.acquisitions st))).
  - cbn [TokenCache.tokenCache]. rewrite lookup_insert_eq.
    apply cached_token_stale. cbn. lia.
Qed.

(** A token stored at reading 5 is refreshed by a call at reading 2940005. *)
Lemma getAzureToken_refresh_from_49_minutes_witness :
  let st1 := (TokenCache.getAzureToken two_tokens 0 5 fresh_process).1 in
  let r := TokenCache.getAzureToken two_tokens 2940005 2940009 st1 in
  TokenCache.acquisitions r.1 = 2%nat
  ∧ r.2 = TokenCache.Resolved "tokenB".
Proof.
  apply (getAzureToken_refresh_from_49_minutes two_tokens 0 5 2940005 2940009
           fresh_process _ "tokenA"); [reflexivity | reflexivity | lia].
Defined.

(** X3. Whenever [getAzureToken] returns a token, the cache holds that
    token for the scope afterwards.  When the call had to acquire it, the
    entry expires 50 minutes after the clock reading taken once the
    provider has answered, not after the reading taken at the call. *)
Theorem getAzureToken_returns_cached_token
    (tokenProvider : nat → TokenCache.Outcome) (now now' : Z)
    (st st1 : TokenCache.AuthState) (tok : string) :
  TokenCache.getAzureToken tokenProvider now now' st
    = (st1, TokenCache.Resolved tok) →
  (∃ e, TokenCache.tokenCache st1 !! TokenCache.AZURE_SCOPE = Some e
        ∧ TokenCache.token e = tok)
  ∧ (TokenCache.acquisitions st1 ≠ TokenCache.acquisitions st →
     TokenCache.tokenCache st1 !! TokenCache.AZURE_SCOPE
     = Some {| TokenCache.token := tok;
               TokenCache.expiresAt := now' + 3000000 |}).
Proof.
  intros Hcall.
  destruct (TokenCache.cached_token now
              (TokenCache.tokenCache st !! TokenCache.AZURE_SCOPE))
    as [tok'|] eqn:Hc.
  - rewrite (getAzureToken_hit _ _ _ _ tok') in Hcall by done.
    injection Hcall as <- <-. split; [| done].
    destruct (TokenCache.tokenCache st !! TokenCache.AZURE_SCOPE) as [e|];
      [| done].
    exists e. split; [done |]. cbn in Hc.
    destruct (TokenCache.expiresAt e >? now + 60000); by simplify_eq.
  - rewrite getAzureToken_miss in Hcall by done.
    destruct (tokenProvider (TokenCache.acquisitions st)) as [tok'|err];
      cbn in Hcall; [| done].
    injection Hcall as <- <-. cbn. rewrite lookup_insert_eq. eauto.
Qed.

Lemma getAzureToken_returns_cached_token_witness :
  let st1 := (TokenCache.getAzureToken two_tokens 0 5 fresh_process).1 in
  (∃ e, TokenCache.tokenCache st1 !! TokenCache.AZURE_SCOPE = Some e
        ∧ TokenCache.token e = "tokenA")
  ∧ (TokenCache.acquisitions st1 ≠ TokenCache.acquisitions fresh_process →
     TokenCache.tokenCache st1 !! TokenCache.AZURE_SCOPE
     = Some {| TokenCache.token := "tokenA";
               TokenCache.expiresAt := 5 + 3000000 |}).
Proof.
  apply (getAzureToken_returns_cached_token two_tokens 0 5 fresh_process).
  reflexivity.
Defined.

(** X4. A call of [getAzureToken] never touches the cache entries of other
    keys, never unsets the credential once it has been built, invokes
    [tokenProvider] at most once, and leaves the whole cache as it was
    when it ends with an error. *)
Theorem getAzureToken_frame
    (tokenProvider : nat → TokenCache.Outcome) (now now' : Z)
    (st : TokenCache.AuthState) :
  let r := TokenCache.getAzureToken tokenProvider now now' st in
  (∀ k : string, k ≠ TokenCache.AZURE_SCOPE →
     TokenCache.tokenCache r.1 !! k = TokenCache.tokenCache st !! k)
  ∧ (TokenCache.azureCredential st = true →
     TokenCache.azureCredential r.1 = true)
  ∧ (TokenCache.acquisitions st ≤ TokenCache.acquisitions r.1
     ≤ S (TokenCache.acquisitions st))%nat
  ∧ (∀ err, r.2 = TokenCache.Rejected err →
       TokenCache.tokenCache r.1 = TokenCache.tokenCache st).
Proof.
  intros r. subst r.
  destruct (TokenCache.cached_token now
              (TokenCache.tokenCache st !! TokenCache.AZURE_SCOPE))
    as [tok'|] eqn:Hc.
  - rewrite (getAzureToken_hit _ _ _ _ tok') by done. cbn.
    repeat (split; [done || lia |]). done.
  - rewrite getAzureToken_miss by done.
    destruct (tokenProvider (TokenCache.acquisitions st)) as [tok'|err]; cbn.
    + split; [intros k Hk; by rewrite lookup_insert_ne |].
      split; [done |]. split; [lia | done].
    + split; [done |]. split; [done |]. split; [lia | done].
Qed.

(** ** Interleaved callers: who writes the cache, how many calls *)

Section ScheduleFacts.
Import TokenCache.

Variable tokenProvider : nat → Outcome.

Lemma not_started_insert_started (tasks : list Task) i t :
  tasks !! i = Some Start → is_start t = false →
  S (not_started (<[i := t]> tasks)) = not_started tasks.
Proof.
  unfold not_started. revert i.
  induction tasks as [|t0 tasks IH]; intros [|i] Hi Ht; try done.
  - cbn in Hi. injection Hi as ->. cbn. by rewrite Ht.
  - cbn in Hi. specialize (IH i Hi Ht).
    change (<[S i := t]> (t0 :: tasks)) with (t0 :: <[i := t]> tasks).
    cbn [List.filter]. destruct (is_start t0); cbn [length]; lia.
Qed.

Lemma not_started_insert_other (tasks : list Task) i t0 t :
  tasks !! i = Some t0 → is_start t0 = false → is_start t = false →
  not_started (<[i := t]> tasks) = not_started tasks.
Proof.
  unfold not_started. revert i.
  induction tasks as [|t1 tasks IH]; intros [|i] Hi Ht0 Ht; try done.
  - cbn in Hi. injection Hi as ->. cbn. by rewrite Ht0, Ht.
  - cbn in Hi. specialize (IH i Hi Ht0 Ht).
    change (<[S i := t]> (t1 :: tasks)) with (t1 :: <[i := t]> tasks).
    cbn [List.filter]. destruct (is_start t1); cbn [length]; lia.
Qed.

(** One scheduler step never raises the sum of the invocations made and
    the callers still to start, and never lowers the invocations made. *)
Lemma step_budget (w : AuthState * list Task) (ev : nat * Z) :
  (acquisitions (step tokenProvider w ev).1
   + not_started (step tokenProvider w ev).2
   ≤ acquisitions w.1 + not_started w.2)%nat
  ∧ (acquisitions w.1 ≤ acquisitions (step tokenProvider w ev).1)%nat.
Proof.
  destruct w as [st tasks], ev as [i now]. unfold step.
  destruct (tasks !! i) as [[|k|r]|] eqn:Hi; cbn [fst snd]; [| | lia | lia].
  - unfold getAzureToken_begin. cbn zeta.
    destruct (cached_token now (tokenCache st !! AZURE_SCOPE)); cbn [fst snd].
    + rewrite <- (not_started_insert_started tasks i (Done (Resolved s)))
        by done. lia.
    + rewrite initializeAzureAuth_acquisitions.
      rewrite <- (not_started_insert_started tasks i
                    (Waiting (acquisitions st))) by done.
      cbn. lia.
  - destruct (getAzureToken_resume now (tokenProvider k) st) as [st1 r] eqn:Hr.
    cbn [fst snd].
    assert (acquisitions st1 = acquisitions st) as ->
      by (rewrite <- (getAzureToken_resume_fst_acquisitions now
                        (tokenProvider k) st); by rewrite Hr).
    rewrite (not_started_insert_other tasks i (Waiting k)) by done. lia.
Qed.

End ScheduleFacts.

(** X5. With two callers issued on an empty cache and both acquisitions
    successful, the cache ends up with the token of the caller that
    resumed last, stamped with that caller's clock reading; when the caller
    that started first resumes last, the older token overwrites the newer
    one. *)
Theorem concurrent_callers_last_writer_wins
    (tokenProvider : nat → TokenCache.Outcome)
    (i p : nat) (t1 t2 t3 t4 : Z) (st : TokenCache.AuthState)
    (tokA tokB : string) :
  (i < 2)%nat → (p < 2)%nat →
  TokenCache.tokenCache st !! TokenCache.AZURE_SCOPE = None →
  tokenProvider (TokenCache.acquisitions st) = TokenCache.Resolved tokA →
  tokenProvider (S (TokenCache.acquisitions st)) = TokenCache.Resolved tokB →
  let w := TokenCache.run tokenProvider
             (TokenCache.two_callers i p t1 t2 t3 t4)
             (st, [TokenCache.Start; TokenCache.Start]) in
  TokenCache.tokenCache w.1 !! TokenCache.AZURE_SCOPE
  = Some {| TokenCache.token := if decide (p = i) then tokB else tokA;
            TokenCache.expiresAt := t4 + 3000000 |}.
Proof.
  intros Hi Hp Hc HA HB w. subst w.
  unfold TokenCache.run, TokenCache.two_callers. cbn [foldl].
  assert (Hm : ∀ t, TokenCache.cached_token t
                      (TokenCache.tokenCache st !! TokenCache.AZURE_SCOPE) = None)
    by (intros t; by rewrite Hc).
  destruct i as [|[|i]]; [| | lia]; destruct p as [|[|p]]; try lia;
    cbn [Nat.sub];
    rewrite (step_start_miss tokenProvider st) by (done || apply Hm);
    rewrite (step_start_miss tokenProvider) by (done || apply Hm);
    cbn [TokenCache.acquisitions];
    (erewrite (step_resume tokenProvider) by reflexivity);
    (erewrite (step_resume tokenProvider) by reflexivity);
    rewrite HA, HB; cbn; by rewrite lookup_insert_eq.
Qed.

(** The first caller resumes last: the cache keeps ["tokenA"]. *)
Lemma concurrent_callers_last_writer_wins_witness :
  let w := TokenCache.run two_tokens
             (TokenCache.two_callers 0 1 10 11 12 13)
             (fresh_process, [TokenCache.Start; TokenCache.Start]) in
  TokenCache.tokenCache w.1 !! TokenCache.AZURE_SCOPE
  = Some {| TokenCache.token := "tokenA";
            TokenCache.expiresAt := 13 + 3000000 |}.
Proof.
  apply (concurrent_callers_last_writer_wins two_tokens 0 1 10 11 12 13
           fresh_process "tokenA" "tokenB");
    [lia | lia | reflexivity | reflexivity | reflexivity].
Defined.

(** X6. Whatever the schedule and the number of callers, each caller
    invokes [tokenProvider] at most once: the invocations made plus the
    callers still to start never exceed what they were at the beginning,
    and the invocations made never go down. *)
Theorem run_at_most_one_acquisition_per_caller
    (tokenProvider : nat → TokenCache.Outcome)
    (sch : list (nat * Z)) (st : TokenCache.AuthState)
    (tasks : list TokenCache.Task) :
  let w := TokenCache.run tokenProvider sch (st, tasks) in
  (TokenCache.acquisitions w.1 + not_started w.2
   ≤ TokenCache.acquisitions st + not_started tasks)%nat
  ∧ (TokenCache.acquisitions st ≤ TokenCache.acquisitions w.1)%nat.
Proof.
  intros w. subst w. unfold TokenCache.run. revert st tasks.
  induction sch as [|ev sch IH]; intros st tasks; cbn [foldl fst snd];
    [lia |].
  destruct (step_budget tokenProvider (st, tasks) ev) as [H1 H2].
  destruct (TokenCache.step tokenProvider (st, tasks) ev) as [st' tasks'].
  destruct (IH st' tasks') as [IH1 IH2]. cbn [fst snd] in H1, H2. lia.
Qed.

(** ** Strings: [split] and [includes] *)

Section StringFacts.
Import Middleware.

Lemma string_app_nil_l (s : string) : "" +:+ s = s.
Proof. reflexivity. Qed.

Lemma string_app_cons c (a b : string) :
  String c a +:+ b = String c (a +:+ b).
Proof. reflexivity. Qed.

Lemma prefix_empty s : String.prefix "" s = true.
Proof. by destruct s. Qed.

Lemma prefix_cons c p d s :
  String.prefix (String c p) (String d s)
  = if Ascii.ascii_dec c d then String.prefix p s else false.
Proof. reflexivity. Qed.

Lemma prefix_append sep rest : String.prefix sep (sep +:+ rest) = true.
Proof.
  induction sep as [|c sep IH]; [apply prefix_empty |].
  rewrite string_app_cons, prefix_cons.
  by destruct (Ascii.ascii_dec c c).
Qed.

Lemma prefix_true_split sep r :
  String.prefix sep r = true → ∃ rest, r = sep +:+ rest.
Proof.
  revert r. induction sep as [|c sep IH]; intros r Hp; [by exists r |].
  destruct r as [|d r]; [done |]. rewrite prefix_cons in Hp.
  destruct (Ascii.ascii_dec c d) as [<- |]; [| done].
  destruct (IH r Hp) as [rest ->]. by exists rest.
Qed.

(** Whether [p] is a prefix is decided by the first [length p]
    characters. *)
Lemma prefix_agree p a x y :
  (String.length p ≤ String.length a)%nat →
  String.prefix p (a +:+ x) = String.prefix p (a +:+ y).
Proof.
  revert a. induction p as [|c p IH]; intros a Hlen.
  - by rewrite !prefix_empty.
  - destruct a as [|d a]; cbn in Hlen; [lia |].
    rewrite !string_app_cons, !prefix_cons.
    destruct (Ascii.ascii_dec c d); [| done]. apply IH. lia.
Qed.

Lemma string_app_assoc (a b c : string) : (a +:+ b) +:+ c = a +:+ b +:+ c.
Proof.
  induction a as [|x a IH]; [done |].
  by rewrite !string_app_cons, IH.
Qed.

Lemma string_app_length (a b : string) :
  String.length (a +:+ b) = (String.length a + String.length b)%nat.
Proof.
  induction a as [|x a IH]; [done |].
  rewrite string_app_cons. cbn. by rewrite IH.
Qed.

Lemma split_head_prefix sep s :
  String.prefix sep s = true → split_head sep s = "".
Proof. intros Hp. destruct s; cbn [split_head]; by rewrite Hp. Qed.

Lemma split_head_cons sep c s :
  String.prefix sep (String c s) = false →
  split_head sep (String c s) = String c (split_head sep s).
Proof. intros Hp. cbn [split_head]. by rewrite Hp. Qed.

Lemma includes_cons sep c s :
  String.prefix sep (String c s) = false →
  includes sep (String c s) = includes sep s.
Proof. intros Hp. cbn [includes]. by rewrite Hp. Qed.

(** When [s] includes [sep], [split_head] stops right in front of an
    occurrence. *)
Lemma split_head_includes sep s :
  includes sep s = true → ∃ rest, s = split_head sep s +:+ sep +:+ rest.
Proof.
  induction s as [|c s IH]; intros Hin.
  - cbn [includes] in Hin. rewrite orb_false_r in Hin.
    destruct (prefix_true_split _ _ Hin) as [rest Hrest].
    exists rest. by rewrite split_head_prefix.
  - destruct (String.prefix sep (String c s)) eqn:Hpre.
    + destruct (prefix_true_split _ _ Hpre) as [rest Hrest].
      exists rest. by rewrite split_head_prefix.
    + rewrite includes_cons in Hin by done.
      destruct (IH Hin) as [rest Hrest]. exists rest.
      rewrite split_head_cons, string_app_cons by done.
      by rewrite <- Hrest.
Qed.

(** Putting any tail behind the head and the separator gives a string
    with the same head. *)
Lemma split_head_rebuild sep s rest :
  includes sep s = true →
  split_head sep (split_head sep s +:+ sep +:+ rest) = split_head sep s.
Proof.
  induction s as [|c s IH]; intros Hin.
  - cbn [includes] in Hin. rewrite orb_false_r in Hin.
    rewrite (split_head_prefix sep "") by done.
    rewrite string_app_nil_l. apply split_head_prefix, prefix_append.
  - destruct (String.prefix sep (String c s)) eqn:Hpre.
    + rewrite (split_head_prefix sep (String c s)) by done.
      rewrite string_app_nil_l. apply split_head_prefix, prefix_append.
    + rewrite includes_cons in Hin by done.
      destruct (split_head_includes _ _ Hin) as [rest' Hrest'].
      rewrite (split_head_cons sep c s), string_app_cons by done.
      rewrite split_head_cons; [by rewrite (IH Hin) |].
      rewrite <- Hpre. rewrite Hrest' at 2.
      rewrite <- !string_app_cons, <- !string_app_assoc.
      apply prefix_agree. rewrite string_app_length. lia.
Qed.

Lemma includes_append sep h rest : includes sep (h +:+ sep +:+ rest) = true.
Proof.
  induction h as [|c h IH].
  - rewrite string_app_nil_l.
    destruct (sep +:+ rest) eqn:Heq; cbn [includes];
      by rewrite <- ?Heq, prefix_append.
  - rewrite string_app_cons. cbn [includes]. rewrite IH. apply orb_true_r.
Qed.

End StringFacts.

(** ** The middleware: what a request and the providers look like after *)

Section MiddlewareSteps.
Import TokenCache Middleware.

Variable tokenProvider : nat → Outcome.

(** The provider object as the URL copy leaves it after a token arrived. *)
Lemma url_success now now' request w ref p a tok :
  selectedProvider request = Some ref →
  store w !! ref = Some p →
  auth_type p = Some "azure" →
  getAzureToken tokenProvider now now' (auth w) = (a, Resolved tok) →
  UrlVariant.azureAuthMiddleware tokenProvider now now' request w
  = ({| auth := a;
        store :=
          <[ref :=
              let p1 := if truthy (api_key p) then delete_api_key p else p in
              match deployment_info request with
              | Some (d, v) =>
                  set_api_base_url
                    (UrlVariant.dynamicUrl
                       (split_head "/openai/" (api_base_url p1)) d v) p1
              | None => p1
              end]> (store w) |},
     set_headers (bearer_headers tok (headers request)) request, None).
Proof.
  intros Hsel Hst Haz Hg. unfold UrlVariant.azureAuthMiddleware.
  rewrite Hsel, Hst, Hg, bool_decide_eq_true_2 by done. done.
Qed.

Lemma hdr_success now now' request w ref p a tok :
  selectedProvider request = Some ref →
  store w !! ref = Some p →
  auth_type p = Some "azure" →
  getAzureToken tokenProvider now now' (auth w) = (a, Resolved tok) →
  HeaderVariant.azureAuthMiddleware tokenProvider now now' request w
  = ({| auth := a;
        store :=
          <[ref := if truthy (api_key p) then delete_api_key p else p]>
            (store w) |},
     set_headers
       (match deployment_info request with
        | Some (d, v) =>
            <["x-azure-api-version" := v]>
              (<["x-azure-deployment" := d]>
                 (bearer_headers tok (headers request)))
        | None => bearer_headers tok (headers request)
        end) request, None).
Proof.
  intros Hsel Hst Haz Hg. unfold HeaderVariant.azureAuthMiddleware.
  rewrite Hsel, Hst, Hg, bool_decide_eq_true_2 by done. done.
Qed.

Lemma middleware_failure now now' request w ref p a err :
  selectedProvider request = Some ref →
  store w !! ref = Some p →
  auth_type p = Some "azure" →
  getAzureToken tokenProvider now now' (auth w) = (a, Rejected err) →
  UrlVariant.azureAuthMiddleware tokenProvider now now' request w
  = ({| auth := a; store := store w |}, request, Some auth_failed)
  ∧ HeaderVariant.azureAuthMiddleware tokenProvider now now' request w
    = ({| auth := a; store := store w |}, request, Some auth_failed).
Proof.
  intros Hsel Hst Haz Hg.
  unfold UrlVariant.azureAuthMiddleware, HeaderVariant.azureAuthMiddleware.
  rewrite Hsel, Hst, Hg, bool_decide_eq_true_2 by done. done.
Qed.

(** A deployment and a version that are both non-empty strings. *)
Lemma deployment_info_Some request d v :
  azureDeployment request = Some d → azureApiVersion request = Some v →
  d ≠ "" → v ≠ "" → deployment_info request = Some (d, v).
Proof.
  intros Hd Hv Hd0 Hv0. unfold deployment_info. rewrite Hd, Hv. cbn.
  destruct (String.eqb_spec d ""); [done |].
  by destruct (String.eqb_spec v "").
Qed.

Lemma deployment_info_None request :
  truthy (azureDeployment request) = false
  ∨ truthy (azureApiVersion request) = false →
  deployment_info request = None.
Proof.
  intros [H | H]; unfold deployment_info; rewrite H;
    [done | by rewrite andb_false_r].
Qed.

End MiddlewareSteps.

(** X7. Both copies of the middleware leave alone every request header
    they are not about: the URL copy all but [authorization], [x-api-key]
    and [api-key], the header copy all but those three and the two
    [x-azure-*] headers.  [selectedProvider], [azureDeployment] and
    [azureApiVersion] of the request are never changed. *)
Theorem azureAuthMiddleware_header_frame
    (tokenProvider : nat → TokenCache.Outcome) (now now' : Z)
    (request : Middleware.Request) (w : Middleware.World) :
  let url := UrlVariant.azureAuthMiddleware tokenProvider now now' request w in
  let hdr :=
    HeaderVariant.azureAuthMiddleware tokenProvider now now' request w in
  (∀ k : string, k ≠ "authorization" → k ≠ "x-api-key" → k ≠ "api-key" →
     Middleware.headers url.1.2 !! k = Middleware.headers request !! k
     ∧ (k ≠ "x-azure-deployment" → k ≠ "x-azure-api-version" →
        Middleware.headers hdr.1.2 !! k = Middleware.headers request !! k))
  ∧ Middleware.set_headers ∅ url.1.2 = Middleware.set_headers ∅ request
  ∧ Middleware.set_headers ∅ hdr.1.2 = Middleware.set_headers ∅ request.
Proof.
  intros url hdr. subst url hdr.
  middleware_cases tokenProvider now now' request w; cbn; try done.
  split; [| done]. intros k H1 H2 H3.
  split; [by apply bearer_headers_other |]. intros H4 H5.
  destruct (Middleware.deployment_info request) as [[d v]|];
    rewrite ?lookup_insert_ne by done; by apply bearer_headers_other.
Qed.

(** X8. When a request for an Azure provider needs a new token and the
    provider call fails, both copies answer with status 500 and the body
    [{ error: 'Azure authentication failed' }]; the request (its client
    API-key headers included), every provider object and the token cache
    stay as they were. *)
Theorem azureAuthMiddleware_failure_reply
    (tokenProvider : nat → TokenCache.Outcome) (now now' : Z)
    (request : Middleware.Request) (w : Middleware.World)
    (ref : nat) (p : Middleware.Provider) (err : string) :
  Middleware.selectedProvider request = Some ref →
  Middleware.store w !! ref = Some p →
  Middleware.auth_type p = Some "azure" →
  TokenCache.cached_token now
    (TokenCache.tokenCache (Middleware.auth w) !! TokenCache.AZURE_SCOPE)
    = None →
  tokenProvider (TokenCache.acquisitions (Middleware.auth w))
    = TokenCache.Rejected err →
  let url := UrlVariant.azureAuthMiddleware tokenProvider now now' request w in
  let hdr :=
    HeaderVariant.azureAuthMiddleware tokenProvider now now' request w in
  url = hdr
  ∧ url.2 = Some {| Middleware.code := 500;
                    Middleware.error := "Azure authentication failed" |}
  ∧ url.1.2 = request
  ∧ Middleware.store url.1.1 = Middleware.store w
  ∧ TokenCache.tokenCache (Middleware.auth url.1.1)
    = TokenCache.tokenCache (Middleware.auth w).
Proof.
  intros Hsel Hst Haz Hmiss Hrej url hdr. subst url hdr.
  assert (Hg : TokenCache.getAzureToken tokenProvider now now'
                 (Middleware.auth w)
               = ({| TokenCache.tokenCache :=
                       TokenCache.tokenCache (Middleware.auth w);
                     TokenCache.azureCredential := true;
                     TokenCache.acquisitions :=
                       S (TokenCache.acquisitions (Middleware.auth w)) |},
                  TokenCache.Rejected err))
    by (rewrite getAzureToken_miss by done; by rewrite Hrej).
  destruct (middleware_failure tokenProvider now now' request w ref p _ err
              Hsel Hst Haz Hg) as [-> ->].
  done.
Qed.

Lemma azureAuthMiddleware_failure_reply_witness :
  let url :=
    UrlVariant.azureAuthMiddleware always_rejects 0 5 (sample_request 0)
      sample_world in
  let hdr :=
    HeaderVariant.azureAuthMiddleware always_rejects 0 5 (sample_request 0)
      sample_world in
  url = hdr
  ∧ url.2 = Some {| Middleware.code := 500;
                    Middleware.error := "Azure authentication failed" |}
  ∧ url.1.2 = sample_request 0
  ∧ Middleware.store url.1.1 = Middleware.store sample_world
  ∧ TokenCache.tokenCache (Middleware.auth url.1.1)
    = TokenCache.tokenCache (Middleware.auth sample_world).
Proof.
  apply (azureAuthMiddleware_failure_reply always_rejects 0 5
           (sample_request 0) sample_world 0 azure_gpt4
           "CredentialUnavailableError"); reflexivity.
Defined.

(** X9. In the header copy, when the request carries a non-empty
    deployment and a non-empty API version, a successful prepare sets
    [x-azure-deployment] and [x-azure-api-version] to them.  When either
    is missing or empty, the two headers are left as the client sent
    them. *)
Theorem header_variant_deployment_headers
    (tokenProvider : nat → TokenCache.Outcome) (now now' : Z)
    (request : Middleware.Request) (w : Middleware.World)
    (ref : nat) (p : Middleware.Provider)
    (a : TokenCache.AuthState) (tok : string) :
  Middleware.selectedProvider request = Some ref →
  Middleware.store w !! ref = Some p →
  Middleware.auth_type p = Some "azure" →
  TokenCache.getAzureToken tokenProvider now now' (Middleware.auth w)
    = (a, TokenCache.Resolved tok) →
  let hdr :=
    HeaderVariant.azureAuthMiddleware tokenProvider now now' request w in
  (∀ d v, Middleware.azureDeployment request = Some d →
          Middleware.azureApiVersion request = Some v →
          d ≠ "" → v ≠ "" →
          Middleware.headers hdr.1.2 !! "x-azure-deployment" = Some d
          ∧ Middleware.headers hdr.1.2 !! "x-azure-api-version" = Some v)
  ∧ (Middleware.truthy (Middleware.azureDeployment request) = false
     ∨ Middleware.truthy (Middleware.azureApiVersion request) = false →
     Middleware.headers hdr.1.2 !! "x-azure-deployment"
     = Middleware.headers request !! "x-azure-deployment"
     ∧ Middleware.headers hdr.1.2 !! "x-azure-api-version"
       = Middleware.headers request !! "x-azure-api-version").
Proof.
  intros Hsel Hst Haz Hg hdr. subst hdr.
  rewrite (hdr_success tokenProvider now now' request w ref p a tok) by done.
  cbn. split.
  - intros d v Hd Hv Hd0 Hv0.
    rewrite (deployment_info_Some request d v) by done.
    by rewrite lookup_insert_ne, !lookup_insert_eq.
  - intros Hnone. rewrite (deployment_info_None request) by done.
    by rewrite !bearer_headers_other.
Qed.

(** A client-made [x-azure-deployment] header survives when the request
    carries no deployment. *)
Lemma header_variant_deployment_headers_witness :
  let hdr :=
    HeaderVariant.azureAuthMiddleware two_tokens 0 5 (plain_request 0)
      sample_world in
  (∀ d v, Middleware.azureDeployment (plain_request 0) = Some d →
          Middleware.azureApiVersion (plain_request 0) = Some v →
          d ≠ "" → v ≠ "" →
          Middleware.headers hdr.1.2 !! "x-azure-deployment" = Some d
          ∧ Middleware.headers hdr.1.2 !! "x-azure-api-version" = Some v)
  ∧ (Middleware.truthy (Middleware.azureDeployment (plain_request 0)) = false
     ∨ Middleware.truthy (Middleware.azureApiVersion (plain_request 0)) = false →
     Middleware.headers hdr.1.2 !! "x-azure-deployment"
     = Middleware.headers (plain_request 0) !! "x-azure-deployment"
     ∧ Middleware.headers hdr.1.2 !! "x-azure-api-version"
       = Middleware.headers (plain_request 0) !! "x-azure-api-version").
Proof.
  apply (header_variant_deployment_headers two_tokens 0 5 (plain_request 0)
           sample_world 0 azure_gpt4
           (TokenCache.getAzureToken two_tokens 0 5 fresh_process).1
           "tokenA"); reflexivity.
Defined.

Section UrlFacts.
Import TokenCache Middleware.

Lemma dynamicUrl_split base d v :
  UrlVariant.dynamicUrl base d v
  = base +:+ "/openai/"
      +:+ ("deployments/" +:+ d +:+ "/chat/completions?api-version=" +:+ v).
Proof. reflexivity. Qed.

(** The URL built from the head of [u] has the head of [u] again. *)
Lemma dynamicUrl_base u d v :
  includes "/openai/" u = true →
  split_head "/openai/"
    (UrlVariant.dynamicUrl (split_head "/openai/" u) d v)
  = split_head "/openai/" u
  ∧ includes "/openai/"
      (UrlVariant.dynamicUrl (split_head "/openai/" u) d v) = true.
Proof.
  intros Hin. rewrite dynamicUrl_split. split.
  - by apply split_head_rebuild.
  - apply includes_append.
Qed.

Lemma api_base_url_drop_key (p : Provider) :
  api_base_url (if truthy (api_key p) then delete_api_key p else p)
  = api_base_url p.
Proof. by destruct (truthy (api_key p)). Qed.

Lemma auth_type_drop_key (p : Provider) :
  auth_type (if truthy (api_key p) then delete_api_key p else p)
  = auth_type p.
Proof. by destruct (truthy (api_key p)). Qed.

End UrlFacts.

(** A base URL without ["/openai/"] that ends in ["/openai"] is not
    recovered: the second rewrite cuts in front of the doubled segment. *)
Example dynamicUrl_base_lost :
  Middleware.split_head "/openai/"
    (UrlVariant.dynamicUrl
       (Middleware.split_head "/openai/" "https://res.azure.com/openai")
       "gpt-4" "2024-10-21")
  = "https://res.azure.com".
Proof. reflexivity. Qed.

(** X10. In the URL copy the rewritten [api_base_url] stays usable for the
    next request: when the configured URL includes ["/openai/"], two
    successful requests for the same provider, the second with deployment
    [d2] and version [v2], leave the provider with the URL built from the
    head of the configured URL and [d2], [v2], whatever the first request
    asked for. *)
Theorem url_variant_rewrite_keeps_base
    (tokenProvider : nat → TokenCache.Outcome) (n1 n1' n2 n2' : Z)
    (request1 request2 : Middleware.Request) (w : Middleware.World)
    (ref : nat) (p : Middleware.Provider) (d2 v2 : string) :
  Middleware.selectedProvider request1 = Some ref →
  Middleware.selectedProvider request2 = Some ref →
  Middleware.store w !! ref = Some p →
  Middleware.auth_type p = Some "azure" →
  includes "/openai/" (Middleware.api_base_url p) = true →
  Middleware.deployment_info request2 = Some (d2, v2) →
  let out1 :=
    UrlVariant.azureAuthMiddleware tokenProvider n1 n1' request1 w in
  let out2 :=
    UrlVariant.azureAuthMiddleware tokenProvider n2 n2' request2 out1.1.1 in
  out1.2 = None → out2.2 = None →
  Middleware.api_base_url <$> Middleware.store out2.1.1 !! ref
  = Some (UrlVariant.dynamicUrl
            (Middleware.split_head "/openai/" (Middleware.api_base_url p))
            d2 v2).
Proof.
  intros Hsel1 Hsel2 Hst Haz Hin Hd2 out1 out2. subst out2 out1.
  destruct (TokenCache.getAzureToken tokenProvider n1 n1' (Middleware.auth w))
    as [a1 [tok1|err1]] eqn:Hg1.
  2:{ destruct (middleware_failure tokenProvider n1 n1' request1 w ref p a1
                  err1 Hsel1 Hst Haz Hg1) as [-> _]. done. }
  rewrite (url_success tokenProvider n1 n1' request1 w ref p a1 tok1) by done.
  cbn [fst snd]. intros _.
  set (p1 := let q := if Middleware.truthy (Middleware.api_key p)
                      then Middleware.delete_api_key p else p in
             match Middleware.deployment_info request1 with
             | Some (d, v) =>
                 Middleware.set_api_base_url
                   (UrlVariant.dynamicUrl
                      (Middleware.split_head "/openai/"
                         (Middleware.api_base_url q)) d v) q
             | None => q
             end).
  assert (Hp1 : Middleware.auth_type p1 = Some "azure"
                ∧ Middleware.split_head "/openai/" (Middleware.api_base_url p1)
                  = Middleware.split_head "/openai/" (Middleware.api_base_url p)).
  { subst p1. cbn zeta.
    destruct (Middleware.deployment_info request1) as [[d v]|]; cbn;
      rewrite ?api_base_url_drop_key, ?auth_type_drop_key; [| done].
    split; [done |]. by apply dynamicUrl_base. }
  destruct Hp1 as [Haz1 Hbase1].
  set (w1 := {| Middleware.auth := a1;
                Middleware.store := <[ref := p1]> (Middleware.store w) |}).
  assert (Hst1 : Middleware.store w1 !! ref = Some p1)
    by apply lookup_insert_eq.
  destruct (TokenCache.getAzureToken tokenProvider n2 n2'
              (Middleware.auth w1)) as [a2 [tok2|err2]] eqn:Hg2.
  2:{ destruct (middleware_failure tokenProvider n2 n2' request2 w1 ref p1 a2
                  err2 Hsel2 Hst1 Haz1 Hg2) as [-> _]. done. }
  rewrite (url_success tokenProvider n2 n2' request2 w1 ref p1 a2 tok2)
    by done.
  cbn [fst snd Middleware.store]. intros _.
  rewrite lookup_insert_eq, Hd2. cbn.
  by rewrite api_base_url_drop_key, Hbase1.
Qed.

(** The sample provider is asked for [gpt-4o-deployment] and then for
    [gpt-35-turbo-deployment]. *)
Lemma url_variant_rewrite_keeps_base_witness :
  let out1 :=
    UrlVariant.azureAuthMiddleware two_tokens 0 5 (sample_request 0)
      sample_world in
  let out2 :=
    UrlVariant.azureAuthMiddleware two_tokens 10 15 (later_request 0)
      out1.1.1 in
  out1.2 = None ∧ out2.2 = None
  ∧ Middleware.api_base_url <$> Middleware.store out2.1.1 !! 0%nat
    = Some "https://res.openai.azure.com/openai/deployments/gpt-35-turbo-deployment/chat/completions?api-version=2024-06-01".
Proof.
  split; [reflexivity |]. split; [reflexivity |].
  apply (url_variant_rewrite_keeps_base two_tokens 0 5 10 15
           (sample_request 0) (later_request 0) sample_world 0 azure_gpt4
           "gpt-35-turbo-deployment" "2024-06-01"); reflexivity.
Defined.

Section SharedToken.
Import TokenCache Middleware.




End SharedToken.



(** ** Configuration loading: token injection, failures, environment *)

Section InjectFacts.
Import Config.

Variable az_cli : nat → option string.


(** What [inject_one] does to a provider when it returns: it counts a run
    for an Azure provider and sets [api_key] when the run printed a
    token. *)
Lemma inject_one_Some k p k1 p1 :
  inject_one az_cli k p = Some (k1, p1) →
  (is_azure p = false → k1 = k ∧ p1 = p)
  ∧ (is_azure p = true → k1 = S k
     ∧ ∀ o, p = JObj o →
         p1 = match az_cli k with
              | Some tok =>
                  if String.eqb tok "" then p
                  else JObj (<["api_key" := JStr tok]> o)
              | None => p
              end).
Proof.
  destruct p as [| | | | |o]; try (intros [= <- <-]; by split).
  cbn. destruct (o !! "auth_type") as [[| | |t| |]|];
    try (intros [= <- <-]; by split).
  destruct (String.eqb t "azure"); [| intros [= <- <-]; by split].
  destruct (printable_opt (o !! "name")); [| done].
  unfold getAzureToken. destruct (az_cli k) as [tok|].
  - destruct (String.eqb tok ""); cbn; intros [= <- <-];
      (split; [done |]); intros _; (split; [done |]); by intros o' [= <-].
  - intros [= <- <-]. split; [done |]. intros _.
    split; [done |]. by intros o' [= <-].
Qed.


Lemma azure_before_S p ps i :
  azure_before (S i) (p :: ps)
  = ((if is_azure p then 1 else 0) + azure_before i ps)%nat.
Proof. unfold azure_before. cbn. by destruct (is_azure p). Qed.

(** The providers after injection, position by position. *)
Lemma inject_Some k ps k' ps' :
  inject az_cli k ps = Some (k', ps') →
  length ps' = length ps
  ∧ ∀ i p, ps !! i = Some p →
      (is_azure p = false → ps' !! i = Some p)
      ∧ (∀ o, p = JObj o → is_azure p = true →
           ps' !! i
           = Some match az_cli (k + azure_before i ps) with
                  | Some tok =>
                      if String.eqb tok "" then p
                      else JObj (<["api_key" := JStr tok]> o)
                  | None => p
                  end).
Proof.
  revert k k' ps'. induction ps as [|p ps IH]; intros k k' ps'; cbn.
  - intros [= <- <-]. split; [done |]. by intros i p ?.
  - destruct (inject_one az_cli k p) as [[k1 p1]|] eqn:Hone; [| done].
    destruct (inject az_cli k1 ps) as [[k2 ps1]|] eqn:Hrest; [| done].
    intros [= <- <-]. destruct (IH _ _ _ Hrest) as [Hlen Hpos].
    destruct (inject_one_Some _ _ _ _ Hone) as [Hplain Hazure].
    split; [cbn; by rewrite Hlen |].
    intros [|i] q Hq; cbn in Hq.
    + injection Hq as <-. split.
      * intros Hp. by destruct (Hplain Hp) as [_ ->].
      * intros o Ho Hp. destruct (Hazure Hp) as [_ Hp1].
        cbn. rewrite (Hp1 o Ho). unfold azure_before. cbn.
        by rewrite Nat.add_0_r.
    + destruct (Hpos i q Hq) as [Hq1 Hq2]. split; [done |].
      intros o Ho Hazq. change ((p1 :: ps1) !! S i) with (ps1 !! i).
      rewrite (Hq2 o Ho Hazq), azure_before_S.
      destruct (is_azure p) eqn:Hp.
      * destruct (Hazure eq_refl) as [-> _].
        by replace (S k + azure_before i ps)%nat
          with (k + (1 + azure_before i ps))%nat by lia.
      * by destruct (Hplain eq_refl) as [-> _].
Qed.

End InjectFacts.

Section LoadFacts.
Import Config.

Variable az_cli : nat → option string.

(** [inject_tokens] in terms of the key that is used. *)
Lemma inject_tokens_unfold (doc : gmap string JSON) :
  inject_tokens az_cli doc
  = if truthy (doc !! providers_key doc) then
      match doc !! providers_key doc with
      | Some (JArr ps) =>
          match inject az_cli 0 ps with
          | Some (_, ps') => Loaded (<[providers_key doc := JArr ps']> doc)
          | None => Exit 1
          end
      | _ => Exit 1
      end
    else Loaded doc.
Proof. reflexivity. Qed.

End LoadFacts.

(** X12. What a successful [readConfigFile] does to the providers array it
    uses ([providers], or [Providers] when [providers] is falsy): the array
    keeps its length; a provider whose [auth_type] is not ['azure'] is
    returned as it is; the n-th Azure provider (counting from 0) gets the
    output of the n-th run of the [az] command line as its [api_key], and
    is returned as it is when that run failed or printed nothing.  Every
    other top-level entry of the document is returned unchanged. *)
Theorem readConfigFile_injects_per_provider
    (az_cli : nat → option string)
    (DEFAULT_CONFIG doc config : gmap string Config.JSON)
    (a : Config.Answers) (write_ok : bool) (ps : list Config.JSON) :
  doc !! providers_key doc = Some (Config.JArr ps) →
  Config.readConfigFile az_cli DEFAULT_CONFIG (Config.Parsed doc) a write_ok
    = Config.Loaded config →
  (∀ k : string, k ≠ providers_key doc → config !! k = doc !! k)
  ∧ ∃ ps', config !! providers_key doc = Some (Config.JArr ps')
      ∧ length ps' = length ps
      ∧ ∀ i p, ps !! i = Some p →
          (is_azure p = false → ps' !! i = Some p)
          ∧ (∀ o, p = Config.JObj o → is_azure p = true →
               ps' !! i
               = Some match az_cli (azure_before i ps) with
                      | Some tok =>
                          if String.eqb tok "" then p
                          else Config.JObj
                                 (<["api_key" := Config.JStr tok]> o)
                      | None => p
                      end).
Proof.
  intros Hps. cbn [Config.readConfigFile].
  rewrite inject_tokens_unfold, Hps. cbn [Config.truthy].
  destruct (Config.inject az_cli 0 ps) as [[k' ps']|] eqn:Hinj; [| done].
  intros [= <-]. split.
  - intros k Hk. by rewrite lookup_insert_ne.
  - exists ps'. rewrite lookup_insert_eq. split; [done |].
    by apply (inject_Some az_cli 0 ps k' ps').
Qed.


(** X14. When no run of the [az] command line yields a token (it fails or
    prints nothing), a configuration that [readConfigFile] returns for a
    parsed document is that document, unchanged. *)
Theorem readConfigFile_without_az_token
    (az_cli : nat → option string)
    (DEFAULT_CONFIG doc config : gmap string Config.JSON)
    (a : Config.Answers) (write_ok : bool) :
  (∀ k, az_cli k = None ∨ az_cli k = Some "") →
  Config.readConfigFile az_cli DEFAULT_CONFIG (Config.Parsed doc) a write_ok
    = Config.Loaded config →
  config = doc.
Proof.
  intros Haz. cbn [Config.readConfigFile]. rewrite inject_tokens_unfold.
  destruct (Config.truthy (doc !! providers_key doc)); [| by intros [= <-]].
  destruct (doc !! providers_key doc) as [[| | | |ps|]|] eqn:Hused; try done.
  destruct (Config.inject az_cli 0 ps) as [[k' ps']|] eqn:Hinj; [| done].
  intros [= <-]. apply insert_id. rewrite Hused. do 2 f_equal.
  destruct (inject_Some az_cli 0 ps k' ps' Hinj) as [Hlen Hpos].
  apply list_eq. intros i. symmetry.
  destruct (ps !! i) as [p|] eqn:Hp.
  - destruct (Hpos i p Hp) as [Hplain Hazure].
    destruct (is_azure p) eqn:Hisaz; [| by apply Hplain].
    destruct p as [| | | | |o]; try done.
    rewrite (Hazure o eq_refl eq_refl). cbn.
    by destruct (Haz (azure_before i ps)) as [-> | ->].
  - apply lookup_ge_None in Hp. apply lookup_ge_None. lia.
Qed.

(** The sample document with the [az] command line logged in: the Azure
    provider, second in the array, gets the token of the first run. *)
Lemma readConfigFile_injects_per_provider_witness :
  (∀ k : string, k ≠ providers_key azure_doc →
     azure_doc_with_token !! k = azure_doc !! k)
  ∧ ∃ ps', azure_doc_with_token !! providers_key azure_doc
           = Some (Config.JArr ps')
      ∧ length ps' = 2%nat
      ∧ ∀ i p,
          [Config.JObj static_provider_json;
           Config.JObj azure_provider_json] !! i = Some p →
          (is_azure p = false → ps' !! i = Some p)
          ∧ (∀ o, p = Config.JObj o → is_azure p = true →
               ps' !! i
               = Some match az_logged_in
                              (azure_before i
                                 [Config.JObj static_provider_json;
                                  Config.JObj azure_provider_json]) with
                      | Some tok =>
                          if String.eqb tok "" then p
                          else Config.JObj
                                 (<["api_key" := Config.JStr tok]> o)
                      | None => p
                      end).
Proof.
  apply (readConfigFile_injects_per_provider az_logged_in ∅ azure_doc
           azure_doc_with_token no_answers true
           [Config.JObj static_provider_json;
            Config.JObj azure_provider_json]); reflexivity.
Defined.

(** The sample document with the [az] command line logged out. *)
Lemma readConfigFile_without_az_token_witness :
  (∀ k, az_logged_out k = None ∨ az_logged_out k = Some "")
  ∧ Config.readConfigFile az_logged_out ∅ (Config.Parsed azure_doc)
      no_answers true
    = Config.Loaded azure_doc
  ∧ azure_doc = azure_doc.
Proof.
  split; [intros k; left; reflexivity |]. split; [reflexivity |].
  apply (readConfigFile_without_az_token az_logged_out ∅ azure_doc azure_doc
           no_answers true); [intros k; left; reflexivity | reflexivity].
Defined.

(** ** [update-azure-config.js] and its agreement with [readConfigFile] *)

Section UpdateFacts.
Import Config UpdateConfig.

Lemma update_one_None tok p :
  update_one tok p = None ↔ callback_throws p = true.
Proof.
  destruct p as [| | | | |o]; try done. cbn.
  destruct (o !! "auth_type") as [[| | |t| |]|]; try done.
  destruct (String.eqb t "azure"); [| done].
  by destruct (printable_opt (o !! "name")).
Qed.

Lemma update_all_None tok ps :
  update_all tok ps = None ↔ ∃ p, p ∈ ps ∧ callback_throws p = true.
Proof.
  induction ps as [|p ps IH]; cbn.
  - split; [done | by intros (? & ?%elem_of_nil & _)].
  - destruct (update_one tok p) as [p1|] eqn:Hone.
    + assert (callback_throws p ≠ true)
        by (intros ?%(update_one_None tok); congruence).
      destruct (update_all tok ps) as [ps1|].
      * split; [done |]. intros (q & Hin & Hq).
        apply elem_of_cons in Hin as [-> | Hin]; [done |].
        assert (Some ps1 = None) by (apply IH; eauto). done.
      * split; [| done]. intros _.
        destruct (proj1 IH eq_refl) as (q & Hin & Hq).
        exists q. split; [by apply elem_of_cons; right | done].
    + apply update_one_None in Hone. split; [| done]. intros _.
      exists p. split; [by apply elem_of_cons; left | done].
Qed.

Lemma update_one_Some tok p p1 :
  update_one tok p = Some p1 →
  (is_azure p = false → p1 = p)
  ∧ (∀ o, p = JObj o → is_azure p = true →
       p1 = JObj (<["api_key" := JStr tok]> o)).
Proof.
  destruct p as [| | | | |o]; try (intros [= <-]; by split).
  cbn. destruct (o !! "auth_type") as [[| | |t| |]|];
    try (intros [= <-]; by split).
  destruct (String.eqb t "azure"); [| intros [= <-]; by split].
  destruct (printable_opt (o !! "name")); [| done].
  intros [= <-]. split; [done |]. by intros o' [= <-].
Qed.

Lemma update_all_Some tok ps ps' :
  update_all tok ps = Some ps' →
  length ps' = length ps
  ∧ ∀ i p, ps !! i = Some p →
      (is_azure p = false → ps' !! i = Some p)
      ∧ (∀ o, p = JObj o → is_azure p = true →
           ps' !! i = Some (JObj (<["api_key" := JStr tok]> o))).
Proof.
  revert ps'. induction ps as [|p ps IH]; intros ps'; cbn.
  - intros [= <-]. split; [done |]. by intros i p ?.
  - destruct (update_one tok p) as [p1|] eqn:Hone; [| done].
    destruct (update_all tok ps) as [ps1|] eqn:Hrest; [| done].
    intros [= <-]. destruct (IH _ eq_refl) as [Hlen Hpos].
    destruct (update_one_Some _ _ _ Hone) as [Hplain Hazure].
    split; [cbn; by rewrite Hlen |].
    intros [|i] q Hq; cbn in Hq.
    + injection Hq as <-. split.
      * intros Hp. by rewrite (Hplain Hp).
      * intros o Ho Hp. by rewrite (Hazure o Ho Hp).
    + apply (Hpos i q Hq).
Qed.

(** With a command line that prints the same non-empty token at every
    run, injection at load time and the update script compute the same
    array. *)
Lemma inject_update_all (az_cli : nat → option string) tok k ps :
  (∀ n, az_cli n = Some tok) → tok ≠ "" →
  snd <$> inject az_cli k ps = update_all tok ps.
Proof.
  intros Haz Htok. revert k. induction ps as [|p ps IH]; intros k; [done |].
  cbn [inject update_all].
  assert (Hone : inject_one az_cli k p
                 = (λ p1, (if is_azure p then S k else k, p1))
                     <$> update_one tok p).
  { destruct p as [| | | | |o]; try done. cbn.
    destruct (o !! "auth_type") as [[| | |t| |]|]; try done.
    destruct (String.eqb t "azure"); [| done].
    destruct (printable_opt (o !! "name")); [| done].
    unfold getAzureToken. rewrite Haz.
    by destruct (String.eqb_spec tok ""). }
  rewrite Hone. destruct (update_one tok p) as [p1|]; [| done]. cbn.
  rewrite <- (IH (if is_azure p then S k else k)).
  by destruct (inject az_cli _ ps) as [[k2 ps1]|].
Qed.

End UpdateFacts.

(** X15. Take one document value, as both [JSON5.parse] in
    [readConfigFile] and [JSON.parse] in the update script deliver it for a
    file in strict JSON, with an array under [providers], and a command
    line that prints the same non-empty token at every run.  Then the
    update script writes a configuration back exactly when [readConfigFile]
    returns one and the write succeeds, and it is the same
    configuration. *)
Theorem updateConfig_agrees_with_readConfigFile
    (az_cli : nat → option string)
    (DEFAULT_CONFIG doc config : gmap string Config.JSON)
    (a : Config.Answers) (write_ok write_ok' : bool) (tok : string)
    (ps : list Config.JSON) :
  (∀ n, az_cli n = Some tok) → tok ≠ "" →
  doc !! "providers" = Some (Config.JArr ps) →
  UpdateConfig.updateConfig (Some doc) (Some tok) write_ok'
    = UpdateConfig.Written config
  ↔ Config.readConfigFile az_cli DEFAULT_CONFIG (Config.Parsed doc)
      a write_ok = Config.Loaded config
    ∧ write_ok' = true.
Proof.
  intros Haz Htok Hps. cbn [Config.readConfigFile UpdateConfig.updateConfig].
  assert (Hkey : providers_key doc = "providers")
    by (unfold providers_key; by rewrite Hps).
  rewrite inject_tokens_unfold, Hkey, Hps. cbn [Config.truthy].
  rewrite <- (inject_update_all az_cli tok 0 ps Haz Htok).
  destruct (Config.inject az_cli 0 ps) as [[k' ps']|]; cbn;
    [| split; [done | by intros [? _]]].
  destruct write_ok'; [| split; [done | by intros [_ ?]]].
  split; [by intros [= <-] | by intros [[= <-] _]].
Qed.

Lemma updateConfig_agrees_with_readConfigFile_witness :
  UpdateConfig.updateConfig (Some azure_doc) (Some "eyJ0") true
    = UpdateConfig.Written azure_doc_with_token
  ↔ Config.readConfigFile az_logged_in ∅ (Config.Parsed azure_doc)
      no_answers true
    = Config.Loaded azure_doc_with_token
    ∧ true = true.
Proof.
  apply (updateConfig_agrees_with_readConfigFile az_logged_in ∅ azure_doc
           azure_doc_with_token no_answers true true "eyJ0"
           [Config.JObj static_provider_json;
            Config.JObj azure_provider_json]);
    [reflexivity | discriminate | reflexivity].
Defined.

(** X16. When the update script writes a configuration back, the [az]
    command line had printed a token and the document has a [providers]
    array: in the written configuration that array has the same length,
    every provider whose [auth_type] is ['azure'] has the token as its
    [api_key] (an empty token too), every other provider is as it was, and
    so is every other top-level entry. *)
Theorem updateConfig_sets_every_azure_key
    (doc config : gmap string Config.JSON) (az : option string)
    (write_ok : bool) :
  UpdateConfig.updateConfig (Some doc) az write_ok
    = UpdateConfig.Written config →
  ∃ tok ps ps',
    az = Some tok ∧ write_ok = true
    ∧ doc !! "providers" = Some (Config.JArr ps)
    ∧ config !! "providers" = Some (Config.JArr ps')
    ∧ length ps' = length ps
    ∧ (∀ k : string, k ≠ "providers" → config !! k = doc !! k)
    ∧ ∀ i p, ps !! i = Some p →
        (is_azure p = false → ps' !! i = Some p)
        ∧ (∀ o, p = Config.JObj o → is_azure p = true →
             ps' !! i
             = Some (Config.JObj (<["api_key" := Config.JStr tok]> o))).
Proof.
  cbn [UpdateConfig.updateConfig]. destruct az as [tok|]; [| done].
  destruct (doc !! "providers") as [[| | | |ps|]|] eqn:Hps; try done.
  destruct (UpdateConfig.update_all tok ps) as [ps'|] eqn:Hall; [| done].
  destruct write_ok; [| done]. intros [= <-].
  exists tok, ps, ps'. do 3 (split; [done |]).
  split; [apply lookup_insert_eq |].
  destruct (update_all_Some tok ps ps' Hall) as [Hlen Hpos].
  split; [done |]. split; [| done].
  intros k Hk. by rewrite lookup_insert_ne.
Qed.

(** The sample document updated with an empty token. *)
Lemma updateConfig_sets_every_azure_key_witness :
  ∃ tok ps ps',
    Some "" = Some tok ∧ true = true
    ∧ azure_doc !! "providers" = Some (Config.JArr ps)
    ∧ <["providers" :=
          Config.JArr [Config.JObj static_provider_json;
                       Config.JObj
                         (<["api_key" := Config.JStr ""]>
                            azure_provider_json)]]> azure_doc
        !! "providers" = Some (Config.JArr ps')
    ∧ length ps' = length ps
    ∧ (∀ k : string, k ≠ "providers" →
         <["providers" :=
             Config.JArr [Config.JObj static_provider_json;
                          Config.JObj
                            (<["api_key" := Config.JStr ""]>
                               azure_provider_json)]]> azure_doc !! k
         = azure_doc !! k)
    ∧ ∀ i p, ps !! i = Some p →
        (is_azure p = false → ps' !! i = Some p)
        ∧ (∀ o, p = Config.JObj o → is_azure p = true →
             ps' !! i
             = Some (Config.JObj (<["api_key" := Config.JStr tok]> o))).
Proof.
  apply (updateConfig_sets_every_azure_key azure_doc _ (Some "") true).
  reflexivity.
Defined.

(** X17. How [updateConfig] ends.  It calls [process.exit] exactly when
    the file was read and parsed but the [az] command failed, whatever the
    document holds, and then the status is 1.  It writes a configuration
    exactly when the file was parsed, the command printed a token,
    [providers] is an array with no element on which the callback throws
    ([null], or an Azure provider whose [name] cannot be converted to a
    string for the line printed) and the write succeeds.  When the file
    cannot be read or parsed an exception escapes before the command is
    run. *)
Theorem updateConfig_outcome
    (file : option (gmap string Config.JSON)) (az : option string)
    (write_ok : bool) :
  let r := UpdateConfig.updateConfig file az write_ok in
  (∀ status, (r = UpdateConfig.Exit status) ↔
     (status = 1 ∧ az = None ∧ ∃ doc, file = Some doc))
  ∧ ((∃ config, r = UpdateConfig.Written config) ↔
     ∃ doc tok ps,
       file = Some doc ∧ az = Some tok
       ∧ doc !! "providers" = Some (Config.JArr ps)
       ∧ (∀ p, p ∈ ps → callback_throws p = false) ∧ write_ok = true)
  ∧ (file = None → r = UpdateConfig.Thrown).
Proof.
  intros r. subst r. unfold UpdateConfig.updateConfig.
  destruct file as [doc|].
  2:{ split; [| split; [| done]].
      - intros status. split; [done | by intros (_ & _ & ? & ?)].
      - split; [by intros [? ?] | by intros (? & ? & ? & ? & _)]. }
  destruct az as [tok|].
  2:{ split; [| split; [| done]].
      - intros status. split; [intros [= <-]; eauto | by intros (-> & _)].
      - split; [by intros [? ?] | by intros (? & ? & ? & _ & ? & _)]. }
  split; [| split; [| done]].
  - intros status. split; [| by intros (_ & ? & _)].
    destruct (doc !! "providers") as [[| | | |ps|]|]; cbn beta iota;
      try (intros ?; discriminate).
    destruct (UpdateConfig.update_all tok ps); [| intros ?; discriminate].
    destruct write_ok; intros ?; discriminate.
  - destruct (doc !! "providers") as [[| | | |ps|]|] eqn:Hps; cbn beta iota;
      try (split; [by intros [? ?]
                  | intros (? & ? & ? & [= <-] & _ & ? & _); congruence]).
    destruct (UpdateConfig.update_all tok ps) as [ps'|] eqn:Hall.
    + assert (Hnone : ∀ p, p ∈ ps → callback_throws p = false).
      { intros p Hin. destruct (callback_throws p) eqn:Hp; [| done].
        assert (UpdateConfig.update_all tok ps = None)
          by (apply update_all_None; eauto).
        congruence. }
      destruct write_ok.
      * split; [| eauto]. intros _. exists doc, tok, ps. eauto 10.
      * split; [by intros [? ?] | by intros (? & ? & ? & _ & _ & _ & _ & ?)].
    + apply update_all_None in Hall as (q & Hin & Hq).
      split; [by intros [? ?] |].
      intros (? & ? & ps0 & [= <-] & _ & Hps0 & Hnone & _).
      rewrite Hps in Hps0. injection Hps0 as <-.
      rewrite (Hnone q Hin) in Hq. done.
Qed.

(** X18. [initConfig] writes only the environment entries named by the
    top-level keys of the configuration that [readConfigFile] returned: an
    entry whose name is not the C name of such a key is what it was,
    whether [initConfig] returns, stops at a value it cannot convert, or
    gets no configuration at all. *)
Theorem initConfig_env_frame
    (az_cli : nat → option string)
    (DEFAULT_CONFIG : gmap string Config.JSON)
    (ToString : Config.JSON → string)
    (own_keys : gmap string Config.JSON → list string)
    (file : Config.ConfigFile) (a : Config.Answers) (write_ok : bool)
    (env : gmap string string) (n : string) :
  (∀ config,
     Config.readConfigFile az_cli DEFAULT_CONFIG file a write_ok
       = Config.Loaded config →
     ∀ k, is_Some (config !! k) → Config.c_str k ≠ n) →
  (Config.initConfig az_cli DEFAULT_CONFIG ToString own_keys file a write_ok
     env).2 !! n
  = env !! n.
Proof.
  intros Hn. unfold Config.initConfig.
  destruct (Config.readConfigFile az_cli DEFAULT_CONFIG file a write_ok)
    as [config| |]; [| done | done].
  pose proof (assign_env_frame ToString config (own_keys config) env n
                (Hn config eq_refl)) as Hframe.
  by destruct (Config.assign_env ToString config (own_keys config) env)
    as [env1 [|]].
Qed.

(** [HOME] is not a key of the sample document. *)
Lemma initConfig_env_frame_witness :
  (Config.initConfig az_logged_out ∅ sample_ToString sorted_keys
     (Config.Parsed odd_names_doc) no_answers true {[ "HOME" := "/root" ]}).2
    !! "HOME"
  = ({[ "HOME" := "/root" ]} : gmap string string) !! "HOME".
Proof.
  apply (initConfig_env_frame az_logged_out ∅ sample_ToString sorted_keys
           (Config.Parsed odd_names_doc) no_answers true
           {[ "HOME" := "/root" ]} "HOME").
  intros config [= <-] k [v Hk]. unfold odd_names_doc in Hk.
  apply lookup_insert_Some in Hk as [[<- _] | [_ Hk]]; [discriminate |].
  apply lookup_insert_Some in Hk as [[<- _] | [_ Hk]]; [discriminate |].
  apply lookup_singleton_Some in Hk as [<- _]. discriminate.
Defined.

(** X19. The configuration created at the first run is returned unchanged
    when it is loaded again: the provider it defines has no [auth_type],
    so no token is put in.  This needs [DEFAULT_CONFIG] to have no truthy
    [providers] entry of its own. *)
Theorem first_run_config_loads_unchanged
    (az_cli : nat → option string)
    (DEFAULT_CONFIG : gmap string Config.JSON)
    (a a' : Config.Answers) (write_ok write_ok' : bool)
    (config : gmap string Config.JSON) :
  Config.truthy (DEFAULT_CONFIG !! "providers") = false →
  Config.readConfigFile az_cli DEFAULT_CONFIG Config.Missing a write_ok
    = Config.Loaded config →
  Config.readConfigFile az_cli DEFAULT_CONFIG (Config.Parsed config)
    a' write_ok'
  = Config.Loaded config.
Proof.
  intros Hdef. cbn [Config.readConfigFile].
  destruct write_ok; [| done]. intros [= <-].
  rewrite inject_tokens_unfold.
  assert (Hkey : providers_key (Config.wizard_config DEFAULT_CONFIG a)
                 = "Providers").
  { unfold providers_key, Config.wizard_config.
    by rewrite !lookup_insert_ne, Hdef by done. }
  rewrite Hkey. unfold Config.wizard_config at 1 2.
  rewrite lookup_insert_ne, lookup_insert_eq by done.
  cbn [Config.truthy Config.inject].
  assert (Hone : ∀ o : gmap string Config.JSON,
            o !! "auth_type" = None →
            Config.inject_one az_cli 0 (Config.JObj o)
            = Some (0%nat, Config.JObj o))
    by (intros o Ho; cbn; by rewrite Ho).
  rewrite Hone by done. f_equal.
  apply insert_id. unfold Config.wizard_config.
  by rewrite lookup_insert_ne, lookup_insert_eq.
Qed.

Lemma first_run_config_loads_unchanged_witness :
  Config.readConfigFile az_logged_in ∅
    (Config.Parsed
       (Config.wizard_config ∅
          {| Config.ans_name := "local"; Config.ans_APIKEY := "sk-1";
             Config.ans_baseUrl := "http://localhost:11434/v1";
             Config.ans_model := "llama3" |}))
    no_answers false
  = Config.Loaded
      (Config.wizard_config ∅
         {| Config.ans_name := "local"; Config.ans_APIKEY := "sk-1";
            Config.ans_baseUrl := "http://localhost:11434/v1";
            Config.ans_model := "llama3" |}).
Proof.
  apply (first_run_config_loads_unchanged az_logged_in ∅
           {| Config.ans_name := "local"; Config.ans_APIKEY := "sk-1";
              Config.ans_baseUrl := "http://localhost:11434/v1";
              Config.ans_model := "llama3" |} no_answers true false);
    reflexivity.
Defined.
